(** * Image-nexus: the storage package (local and S3 image storage)

    A shallow embedding of [package storage]: the decoder registry
    [CONTENT_DECODERS], the two implementations of the [ImageStorage]
    interface ([localImageStorage] and [s3ImageStorage]) with their
    [GetFullPath], [Save] and [Get] methods, and [NewStorage].

    The Go packages the code calls into are modelled as modules of the same
    name ([multipart], [os], [s3], ...).  Every medium carries a list of
    pending faults: each primitive call takes the next entry, and fails with
    the error found there if there is one.  The libraries whose behaviour
    depends on image formats ([http.DetectContentType] and the six
    [DecodeConfig] functions) are taken as parameters through the class
    [Libs]. *)

From Stdlib Require Import ZArith Lia Strings.Byte Ascii String List.
From stdpp Require Import base option gmap strings list fin_maps.

Local Open Scope Z_scope.

(** ** Go values *)

(** [error] values.  [wrapError] is what [fmt.Errorf("...: %w", err)] builds,
    [PathError] is [*fs.PathError], [APIError] is an error with an
    [ErrorCode() string] method; the last two constructors are the error
    types declared by the storage package itself. *)
Inductive error : Type :=
| io_EOF
| Errno (name : string)
| PathError (op path : string) (err : error)
| errorString (msg : string)
| wrapError (msg : string) (err : error)
| APIError (code : string)
| S3NotFoundError (Key : string)
| S3DownloadError (Key : string) (Err : error).

(** [errors.Is(err, os.ErrNotExist)]: follows the [Unwrap] chain. *)
Fixpoint is_ErrNotExist (err : error) : bool :=
  match err with
  | Errno name => String.eqb name "ENOENT"
  | PathError _ _ e => is_ErrNotExist e
  | wrapError _ e => is_ErrNotExist e
  | _ => false
  end.

(** [errors.As(err, &apiErr)] for [apiErr interface{ ErrorCode() string }],
    followed by [apiErr.ErrorCode()]: the code of the first error of the
    [Unwrap] chain that has the method.  [S3DownloadError] has no [Unwrap]
    method, so the chain stops there. *)
Fixpoint as_ErrorCode (err : error) : option string :=
  match err with
  | APIError code => Some code
  | PathError _ _ e => as_ErrorCode e
  | wrapError _ e => as_ErrorCode e
  | _ => None
  end.

(** [int32(x)] for a Go [int] or [int64]: the low 32 bits, signed. *)
Definition int32 (x : Z) : Z := (x + 2 ^ 31) mod 2 ^ 32 - 2 ^ 31.

(** Pending faults of a medium: the head is consulted by the next primitive
    call on it; an exhausted list means no further fault. *)
Abbreviation faults := (list (option error)).

Definition next_fault (p : faults) : option error * faults :=
  match p with
  | [] => (None, [])
  | t :: p' => (t, p')
  end.

(** The entry that the [i]-th call (from 0) on a medium will meet. *)
Definition fault_at (i : nat) (p : faults) : option error :=
  default None (p !! i).

(** ** [fmt] and [path/filepath] *)

Module fmt.

(** [fmt.Sprintf] restricted to the [%s] verb with string operands. *)
Fixpoint Sprintf (format : string) (args : list string) : string :=
  match format with
  | EmptyString => EmptyString
  | String "%"%char (String "s"%char rest) =>
      match args with
      | a :: args' => a +:+ Sprintf rest args'
      | [] => "%!s(MISSING)" +:+ Sprintf rest []
      end
  | String c rest => String c (Sprintf rest args)
  end.

End fmt.

Module filepath.

(** The loop of [filepath.Ext], on the reversed path: walk back from the last
    byte until a path separator; return the suffix that starts at the first
    dot met. *)
Fixpoint ext_scan (rpath : list ascii) (acc : list ascii) : list ascii :=
  match rpath with
  | [] => []
  | c :: rest =>
      if Ascii.eqb c "/" then []
      else if Ascii.eqb c "." then c :: acc
      else ext_scan rest (c :: acc)
  end.

Definition Ext (path : string) : string :=
  string_of_list_ascii (ext_scan (rev (list_ascii_of_string path)) []).

(** The text before the last separator of a path, if it has one. *)
Fixpoint before_last_slash (p : string) : option string :=
  match p with
  | EmptyString => None
  | String c p' =>
      match before_last_slash p' with
      | Some d => Some (String c d)
      | None => if Ascii.eqb c "/" then Some EmptyString else None
      end
  end.

(** The directory an entry named [p] lives in. *)
Definition parent (p : string) : string :=
  match before_last_slash p with
  | Some EmptyString => "/"
  | Some d => d
  | None => "."
  end.

End filepath.

(** ** [image]: what a header decoder returns *)

Module image.

Record Config := { Width : Z; Height : Z }.

(** A [DecodeConfig] function, as a function of the bytes left in the reader
    it is given: how many of them it reads, and what it returns. *)
Record Decoded := { consumed : nat; outcome : Config + error }.

End image.

Abbreviation Decoder := (list byte -> image.Decoded).

(** ** [mime/multipart]: the uploaded file *)

Module multipart.

(** An open [multipart.File]: the bytes, the read offset, the pending faults
    of this handle. *)
Record File := { data : list byte; pos : nat; plan : faults }.

(** A [multipart.FileHeader].  [content], [open_err] and [io_plan] stand for
    the unexported part: the bytes [Open] gives access to, whether [Open]
    fails, and the faults the opened handle will meet. *)
Record FileHeader := {
  Filename : string;
  Size : Z;
  content : list byte;
  open_err : option error;
  io_plan : faults
}.

(** The parser of [mime/multipart] sets [Size] to the number of bytes. *)
Definition well_formed (file : FileHeader) : Prop :=
  Size file = Z.of_nat (length (content file)).

Definition Open (file : FileHeader) : File + error :=
  match open_err file with
  | Some err => inr err
  | None => inl {| data := content file; pos := 0; plan := io_plan file |}
  end.

(** [src.Read(buf)]: the buffer after the call, the count and the error. *)
Definition Read (src : File) (buf : list byte) : (list byte * nat * option error) * File :=
  let (t, p) := next_fault (plan src) in
  match t with
  | Some err => ((buf, 0%nat, Some err), {| data := data src; pos := pos src; plan := p |})
  | None =>
      let rest := drop (pos src) (data src) in
      match rest with
      | [] => ((buf, 0%nat, Some io_EOF), {| data := data src; pos := pos src; plan := p |})
      | _ :: _ =>
          let n := Nat.min (length buf) (length rest) in
          ((take n rest ++ drop n buf, n, None),
           {| data := data src; pos := (pos src + n)%nat; plan := p |})
      end
  end.

(** [src.Seek(offset, io.SeekStart)]; a failed seek leaves the offset.  The
    entry of the plan stands for the error result that the callers test;
    the handles that [FileHeader.Open] returns, a section reader over memory
    or the temporary file, do not fail a seek to the start. *)
Definition Seek (src : File) (offset : nat) : option error * File :=
  let (t, p) := next_fault (plan src) in
  match t with
  | Some err => (Some err, {| data := data src; pos := pos src; plan := p |})
  | None => (None, {| data := data src; pos := offset; plan := p |})
  end.

(** Calling a header decoder on the handle: it reads from the current
    offset; a fault of the handle during its reads is what it returns. *)
Definition decode (decoder : Decoder) (src : File) : (image.Config + error) * File :=
  let (t, p) := next_fault (plan src) in
  match t with
  | Some err => (inr err, {| data := data src; pos := pos src; plan := p |})
  | None =>
      let rest := drop (pos src) (data src) in
      let r := decoder rest in
      (image.outcome r,
       {| data := data src;
          pos := (pos src + Nat.min (image.consumed r) (length rest))%nat;
          plan := p |})
  end.

(** Reading the handle to its end, as [io.Copy] and the S3 uploader do. *)
Definition read_to_end (src : File) : (list byte + error) * File :=
  let (t, p) := next_fault (plan src) in
  match t with
  | Some err => (inr err, {| data := data src; pos := pos src; plan := p |})
  | None =>
      (inl (drop (pos src) (data src)),
       {| data := data src; pos := Nat.max (pos src) (length (data src)); plan := p |})
  end.

End multipart.

(** ** [os] and [io/ioutil]: the local medium *)

Module os.

(** Directories, regular files by path, and the pending faults of the
    medium.  Paths are handed over as the caller wrote them. *)
Record FS := {
  dirs : gset string;
  files : gmap string (list byte);
  fs_plan : faults
}.

Definition exists_at (m : FS) (path : string) : bool :=
  bool_decide (path ∈ dirs m) || bool_decide (is_Some (files m !! path)).

Definition with_plan (m : FS) (p : faults) : FS :=
  {| dirs := dirs m; files := files m; fs_plan := p |}.

(** Whether the nearest entry above [p] that exists is a regular file: the
    walk goes up one directory at a time, and stops at a directory, at a
    regular file, or at the top.  [fuel] bounds the number of levels. *)
Fixpoint under_file (fuel : nat) (m : FS) (p : string) : bool :=
  match fuel with
  | O => false
  | S fuel' =>
      let a := filepath.parent p in
      if bool_decide (a ∈ dirs m) then false
      else if bool_decide (is_Some (files m !! a)) then true
      else if String.eqb a p then false
      else under_file fuel' m a
  end.

(** [os.Stat(path)], reduced to its error: for a path that does not exist,
    ENOTDIR when a regular file is on the way to it, and ENOENT otherwise. *)
Definition Stat (m : FS) (path : string) : option error * FS :=
  let (t, p) := next_fault (fs_plan m) in
  match t with
  | Some err => (Some err, with_plan m p)
  | None =>
      if exists_at m path then (None, with_plan m p)
      else if under_file (S (String.length path)) m path
      then (Some (PathError "stat" path (Errno "ENOTDIR")), with_plan m p)
      else (Some (PathError "stat" path (Errno "ENOENT")), with_plan m p)
  end.

(** [os.Mkdir(path, perm)]. *)
Definition Mkdir (m : FS) (path : string) : option error * FS :=
  let (t, p) := next_fault (fs_plan m) in
  match t with
  | Some err => (Some err, with_plan m p)
  | None =>
      if exists_at m path then
        (Some (PathError "mkdir" path (Errno "EEXIST")), with_plan m p)
      else if bool_decide (filepath.parent path ∈ dirs m) then
        (None, {| dirs := {[path]} ∪ dirs m; files := files m; fs_plan := p |})
      else (Some (PathError "mkdir" path (Errno "ENOENT")), with_plan m p)
  end.

(** [os.Create(path)]: creates or truncates the file; the handle returned is
    represented by the path.  It creates no directory. *)
Definition Create (m : FS) (path : string) : (string + error) * FS :=
  let (t, p) := next_fault (fs_plan m) in
  match t with
  | Some err => (inr err, with_plan m p)
  | None =>
      if bool_decide (path ∈ dirs m) then
        (inr (PathError "open" path (Errno "EISDIR")), with_plan m p)
      else if bool_decide (filepath.parent path ∈ dirs m) then
        (inl path, {| dirs := dirs m; files := <[path := []]> (files m); fs_plan := p |})
      else (inr (PathError "open" path (Errno "ENOENT")), with_plan m p)
  end.

(** [os.Open(path)]. *)
Definition Open (m : FS) (path : string) : (string + error) * FS :=
  let (t, p) := next_fault (fs_plan m) in
  match t with
  | Some err => (inr err, with_plan m p)
  | None =>
      if exists_at m path then (inl path, with_plan m p)
      else (inr (PathError "open" path (Errno "ENOENT")), with_plan m p)
  end.

(** [out.Write(b)] on a handle returned by [Create]. *)
Definition Write (m : FS) (out : string) (b : list byte) : option error * FS :=
  let (t, p) := next_fault (fs_plan m) in
  match t with
  | Some err => (Some err, with_plan m p)
  | None =>
      (None, {| dirs := dirs m;
                files := <[out := default [] (files m !! out) ++ b]> (files m);
                fs_plan := p |})
  end.

(** [ioutil.ReadAll(file)] on a handle returned by [Open]: the bytes read and
    the error. *)
Definition ReadAll (m : FS) (file : string) : (list byte * option error) * FS :=
  let (t, p) := next_fault (fs_plan m) in
  match t with
  | Some err => (([], Some err), with_plan m p)
  | None =>
      match files m !! file with
      | Some b => ((b, None), with_plan m p)
      | None => (([], Some (PathError "read" file (Errno "EISDIR"))), with_plan m p)
      end
  end.

(** [io.Copy(out, src)] from an upload handle to a created file, reduced to
    its error: the handle is read to its end from its current offset, and
    what was read is written. *)
Definition Copy (m : FS) (out : string) (src : multipart.File)
  : option error * multipart.File * FS :=
  match multipart.read_to_end src with
  | (inr err, src') => (Some err, src', m)
  | (inl b, src') =>
      let (werr, m') := Write m out b in (werr, src', m')
  end.

End os.

(** ** [s3]: the remote medium *)

Module s3.

Inductive ObjectCannedACL := ObjectCannedACLPrivate | ObjectCannedACLPublicRead.

Record Object := {
  Body : list byte;
  ContentType : string;
  ACL : ObjectCannedACL
}.

(** Objects by bucket and key, and the pending faults of the service. *)
Record Store := {
  objects : gmap (string * string) Object;
  s3_plan : faults
}.

Definition with_plan (m : Store) (p : faults) : Store :=
  {| objects := objects m; s3_plan := p |}.

(** The input of [uploader.Upload]; [UploadBody] is the reader to send. *)
Record PutObjectInput := {
  Bucket : string;
  Key : string;
  UploadBody : multipart.File;
  UploadContentType : string;
  UploadACL : ObjectCannedACL
}.

(** [uploader.Upload(ctx, input)], reduced to its error: the body is read to
    its end from its current offset, then stored. *)
Definition Upload (m : Store) (input : PutObjectInput)
  : option error * multipart.File * Store :=
  match multipart.read_to_end (UploadBody input) with
  | (inr err, src') => (Some err, src', m)
  | (inl b, src') =>
      let (t, p) := next_fault (s3_plan m) in
      match t with
      | Some err => (Some err, src', with_plan m p)
      | None =>
          (None, src',
           {| objects :=
                <[(Bucket input, Key input) :=
                    {| Body := b;
                       ContentType := UploadContentType input;
                       ACL := UploadACL input |}]> (objects m);
              s3_plan := p |})
      end
  end.

(** [client.GetObject(ctx, {Bucket, Key})]: the stored object, or an error;
    an absent key is reported by the service as the API error [NoSuchKey],
    wrapped by the client. *)
Definition GetObject (m : Store) (bucket key : string) : (Object + error) * Store :=
  let (t, p) := next_fault (s3_plan m) in
  match t with
  | Some err => (inr err, with_plan m p)
  | None =>
      match objects m !! (bucket, key) with
      | Some o => (inl o, with_plan m p)
      | None =>
          (inr (wrapError "operation error S3: GetObject, " (APIError "NoSuchKey")),
           with_plan m p)
      end
  end.

(** [io.Copy(&buf, resp.Body)]: reading the body of a response. *)
Definition ReadBody (m : Store) (resp : Object) : (list byte + error) * Store :=
  let (t, p) := next_fault (s3_plan m) in
  match t with
  | Some err => (inr err, with_plan m p)
  | None => (inl (Body resp), with_plan m p)
  end.

End s3.

(** ** [dto]: what [Save] returns *)

Module dto.

(** Modelled from the spec: the declarations of package [dto] are not among
    the sources.  [PictureRequest] has the six fields of the literal that
    [Save] builds, the three numbers being int32 as the conversions there
    say. *)
Record PictureRequest := {
  Name : string;
  Destination : string;
  Height : Z;
  Width : Z;
  Size : Z;
  ContentType : string
}.

(** Modelled from the spec: [InvalidPictureFileError] carries a status, a
    cause and optional diagnostic data, the three fields that [Save] sets.
    [Data] receives a [gin.H] with string values; the empty map stands for
    a field left unset. *)
Record InvalidPictureFileError := {
  StatusCode : Z;
  Error : error;
  Data : gmap string string
}.

End dto.

Module http.

Definition StatusBadRequest : Z := 400.
Definition StatusInternalServerError : Z := 500.

End http.

(** ** The format libraries, as parameters *)

Class Libs := {
  DetectContentType : list byte -> string;
  jpeg_DecodeConfig : Decoder;
  png_DecodeConfig : Decoder;
  gif_DecodeConfig : Decoder;
  tiff_DecodeConfig : Decoder;
  webp_DecodeConfig : Decoder;
  bmp_DecodeConfig : Decoder
}.

(** ** [package storage] *)

Module storage.

Import multipart dto.

Section WithLibs.
Context `{Libs}.

Definition CONTENT_DECODERS : gmap string Decoder :=
  <["image/jpeg" := jpeg_DecodeConfig]>
  (<["image/png" := png_DecodeConfig]>
  (<["image/gif" := gif_DecodeConfig]>
  (<["image/tiff" := tiff_DecodeConfig]>
  (<["image/webp" := webp_DecodeConfig]>
  (<["image/bmp" := bmp_DecodeConfig]> ∅))))).

(** The interface [ImageStorage], over a backend value [S] and the state [M]
    of its medium.  [Save] also takes the string that
    [utils.NewUniqueString()] returns in that call. *)
Class ImageStorage (S M : Type) := {
  GetFullPath : S -> string -> string;
  Save : S -> string -> FileHeader -> M -> (PictureRequest + InvalidPictureFileError) * M;
  Get : S -> string -> M -> (list byte * option error) * M
}.

(** *** The local variant *)

Record localImageStorage := { path : string }.

(** [NewStorage(path)]; [None] is the exit of the process by [log.Fatalln]. *)
Definition NewStorage (path : string) (m : os.FS) : option localImageStorage * os.FS :=
  let (serr, m1) := os.Stat m path in
  if match serr with Some err => is_ErrNotExist err | None => false end then
    let (merr, m2) := os.Mkdir m1 path in
    match merr with
    | Some _ => (None, m2)
    | None => (Some {| path := path |}, m2)
    end
  else (Some {| path := path |}, m1).

Definition local_GetFullPath (s : localImageStorage) (destination : string) : string :=
  path s +:+ "/" +:+ destination.

Definition local_Save (s : localImageStorage) (unique : string) (file : FileHeader)
    (m : os.FS) : (PictureRequest + InvalidPictureFileError) * os.FS :=
  let extension := filepath.Ext (Filename file) in
  let destination := unique +:+ extension in
  let fullPath := local_GetFullPath s destination in
  match multipart.Open file with
  | inr err =>
      (inr {| StatusCode := http.StatusInternalServerError; Error := err; Data := ∅ |}, m)
  | inl src =>
  let buffer := repeat "000"%byte 512 in
  let '((buffer, _, rerr), src) := multipart.Read src buffer in
  match rerr with
  | Some err =>
      (inr {| StatusCode := http.StatusInternalServerError; Error := err; Data := ∅ |}, m)
  | None =>
  let fileType := DetectContentType buffer in
  match CONTENT_DECODERS !! fileType with
  | None =>
      (inr {| StatusCode := http.StatusBadRequest;
              Error := errorString "unsupported format";
              Data := {["format" := fileType]} |}, m)
  | Some decoder =>
  let (serr, src) := multipart.Seek src 0 in
  match serr with
  | Some err =>
      (inr {| StatusCode := http.StatusInternalServerError; Error := err; Data := ∅ |}, m)
  | None =>
  let (decoded, src) := multipart.decode decoder src in
  match decoded with
  | inr err =>
      (inr {| StatusCode := http.StatusInternalServerError;
              Error := err;
              Data := {["format" := fileType]} |}, m)
  | inl imageConfig =>
  let (created, m) := os.Create m fullPath in
  match created with
  | inr err =>
      (inr {| StatusCode := http.StatusInternalServerError; Error := err; Data := ∅ |}, m)
  | inl out =>
  (* src.Seek(0, io.SeekStart): the result is dropped *)
  let (_, src) := multipart.Seek src 0 in
  let '(cerr, _, m) := os.Copy m out src in
  match cerr with
  | Some err =>
      (inr {| StatusCode := http.StatusInternalServerError; Error := err; Data := ∅ |}, m)
  | None =>
      (inl {| Name := Filename file;
              Destination := destination;
              Height := int32 (image.Height imageConfig);
              Width := int32 (image.Width imageConfig);
              Size := int32 (multipart.Size file);
              ContentType := fileType |}, m)
  end end end end end end end.

Definition local_Get (s : localImageStorage) (destination : string) (m : os.FS)
  : (list byte * option error) * os.FS :=
  let fullPath := local_GetFullPath s destination in
  let (opened, m) := os.Open m fullPath in
  match opened with
  | inr err => (([], Some err), m)
  | inl file => os.ReadAll m file
  end.

#[export] Instance local_ImageStorage : ImageStorage localImageStorage os.FS := {
  GetFullPath := local_GetFullPath;
  Save := local_Save;
  Get := local_Get
}.

(** *** The S3 variant *)

Record s3ImageStorage := {
  bucket : string;
  prefix : string;
  cloudFrontURL : string
}.

(** The last byte of a string, if any: [prefix[len(prefix)-1]]. *)
Fixpoint last_byte (s : string) : option ascii :=
  match s with
  | EmptyString => None
  | String c EmptyString => Some c
  | String _ s' => last_byte s'
  end.

(** [NewS3Storage], given the three configuration values it reads; loading
    the AWS configuration is left out. *)
Definition NewS3Storage (cfgBucket cfgPrefix cfgCloudFrontURL : string) : s3ImageStorage :=
  let prefix :=
    match last_byte cfgPrefix with
    | Some c => if Ascii.eqb c "/" then cfgPrefix else cfgPrefix +:+ "/"
    | None => cfgPrefix
    end in
  {| bucket := cfgBucket; prefix := prefix; cloudFrontURL := cfgCloudFrontURL |}.

Definition s3_GetFullPath (s : s3ImageStorage) (destination : string) : string :=
  fmt.Sprintf "%s/%s%s" [cloudFrontURL s; prefix s; destination].

Definition s3_Save (s : s3ImageStorage) (unique : string) (file : FileHeader)
    (m : s3.Store) : (PictureRequest + InvalidPictureFileError) * s3.Store :=
  let extension := filepath.Ext (Filename file) in
  let destination := unique +:+ extension in
  match multipart.Open file with
  | inr err =>
      (inr {| StatusCode := http.StatusInternalServerError;
              Error := wrapError "cannot open file: " err;
              Data := ∅ |}, m)
  | inl src =>
  let buf := repeat "000"%byte 512 in
  let '((buf, _, rerr), src) := multipart.Read src buf in
  match rerr with
  | Some err =>
      (inr {| StatusCode := http.StatusInternalServerError;
              Error := wrapError "cannot read file header: " err;
              Data := ∅ |}, m)
  | None =>
  let contentType := DetectContentType buf in
  match CONTENT_DECODERS !! contentType with
  | None =>
      (inr {| StatusCode := http.StatusBadRequest;
              Error := errorString "unsupported image format";
              Data := {["format" := contentType]} |}, m)
  | Some decoder =>
  let (serr, src) := multipart.Seek src 0 in
  match serr with
  | Some err =>
      (inr {| StatusCode := http.StatusInternalServerError;
              Error := wrapError "seek error: " err;
              Data := ∅ |}, m)
  | None =>
  let (decoded, src) := multipart.decode decoder src in
  match decoded with
  | inr err =>
      (inr {| StatusCode := http.StatusInternalServerError;
              Error := wrapError "decode error: " err;
              Data := {["format" := contentType]} |}, m)
  | inl imageCfg =>
  let key := prefix s +:+ destination in
  let (serr, src) := multipart.Seek src 0 in
  match serr with
  | Some err =>
      (inr {| StatusCode := http.StatusInternalServerError;
              Error := wrapError "seek before upload: " err;
              Data := ∅ |}, m)
  | None =>
  let '(uerr, _, m) :=
    s3.Upload m {| s3.Bucket := bucket s;
                   s3.Key := key;
                   s3.UploadBody := src;
                   s3.UploadContentType := contentType;
                   s3.UploadACL := s3.ObjectCannedACLPrivate |} in
  match uerr with
  | Some err =>
      (inr {| StatusCode := http.StatusInternalServerError;
              Error := wrapError "s3 upload failed: " err;
              Data := ∅ |}, m)
  | None =>
      (inl {| Name := Filename file;
              Destination := destination;
              Height := int32 (image.Height imageCfg);
              Width := int32 (image.Width imageCfg);
              Size := int32 (multipart.Size file);
              ContentType := contentType |}, m)
  end end end end end end end.

Definition s3_Get (s : s3ImageStorage) (destination : string) (m : s3.Store)
  : (list byte * option error) * s3.Store :=
  let key := prefix s +:+ destination in
  let (fetched, m) := s3.GetObject m (bucket s) key in
  match fetched with
  | inr err =>
      if match as_ErrorCode err with
         | Some code => String.eqb code "NoSuchKey"
         | None => false
         end
      then (([], Some (S3NotFoundError destination)), m)
      else (([], Some (S3DownloadError destination err)), m)
  | inl resp =>
      let (body, m) := s3.ReadBody m resp in
      match body with
      | inr err => (([], Some (S3DownloadError destination err)), m)
      | inl b => ((b, None), m)
      end
  end.

#[export] Instance s3_ImageStorage : ImageStorage s3ImageStorage s3.Store := {
  GetFullPath := s3_GetFullPath;
  Save := s3_Save;
  Get := s3_Get
}.

End WithLibs.

End storage.

(** ** Construction from the configuration *)

Module startup.

Import storage.

(** The viper keys of the three settings. *)
Definition cfgS3Bucket : string := "storage.s3.bucket".
Definition cfgS3Prefix : string := "storage.s3.prefix".
Definition cfgCloudFrontURL : string := "storage.s3.cloudfront_url".

(** [viper.GetString(key)]: the empty string for a key that is not set. *)
Definition GetString (viper : gmap string string) (key : string) : string :=
  default EmptyString (viper !! key).

(** [NewS3Storage()] with its two inputs made explicit: what
    [config.LoadDefaultConfig] returned ([Some err] for a failure) and the
    settings held by viper.  The clients built from the AWS configuration
    are not part of the model of the backend value. *)
Definition NewS3Storage_with (loaded : option error) (viper : gmap string string)
  : s3ImageStorage + error :=
  match loaded with
  | Some err => inr (wrapError "failed to load AWS config: " err)
  | None =>
      inl (NewS3Storage (GetString viper cfgS3Bucket)
                        (GetString viper cfgS3Prefix)
                        (GetString viper cfgCloudFrontURL))
  end.

End startup.

(** ** [package routes]: the two route tables *)

Module routes.

(** [http.MethodGet] and the other method names. *)
Definition MethodGet : string := "GET".
Definition MethodPost : string := "POST".
Definition MethodPut : string := "PUT".
Definition MethodDelete : string := "DELETE".

(** A [Route], with the three fields that the tables set; [F] is the type
    of a handler function.  The two handler interfaces are records of their
    methods. *)
Record Route (F : Type) := { Path : string; Method : string; Handler : F }.

Record PicturesHandler (F : Type) := {
  ListPictures : F;
  GetPicture : F;
  GetPictureFile : F;
  CreatePicture : F;
  DeletePicture : F;
  UpdatePicture : F
}.

Record ServerHandler (F : Type) := { HealthCheck : F }.

Arguments Path {F}.
Arguments Method {F}.
Arguments Handler {F}.
Arguments ListPictures {F}.
Arguments GetPicture {F}.
Arguments GetPictureFile {F}.
Arguments CreatePicture {F}.
Arguments DeletePicture {F}.
Arguments UpdatePicture {F}.
Arguments HealthCheck {F}.

Definition NewPicturesRoutes {F : Type} (handlers : PicturesHandler F) : list (Route F) :=
  [ {| Path := "/"; Method := MethodGet; Handler := ListPictures handlers |};
    {| Path := "/picture/:id"; Method := MethodGet; Handler := GetPicture handlers |};
    {| Path := "/picture/:id/image"; Method := MethodGet; Handler := GetPictureFile handlers |};
    {| Path := "/"; Method := MethodPost; Handler := CreatePicture handlers |};
    {| Path := "/picture/:id"; Method := MethodDelete; Handler := DeletePicture handlers |};
    {| Path := "/picture/:id"; Method := MethodPut; Handler := UpdatePicture handlers |} ].

Definition NewServerRouteList {F : Type} (handlers : ServerHandler F) : list (Route F) :=
  [ {| Path := "/healthcheck"; Method := MethodGet; Handler := HealthCheck handlers |} ].

(** What a router dispatches on. *)
Definition endpoint {F : Type} (r : Route F) : string * string := (Method r, Path r).

End routes.

(** ** A concrete instance of the format libraries, for running the code

    The sniffer knows the signatures of GIF, PNG, JPEG and BMP of the table
    of [http.DetectContentType] and answers [application/octet-stream]
    otherwise.  The GIF decoder is the header reader of [image/gif]: 13
    bytes, the signature, the logical screen size in little endian, and the
    global colour table if the flag says there is one.  It reads the handle
    through a [bufio.Reader], whose first read asks for 4096 bytes.  The
    other decoders reject their input. *)

Module sample.

Fixpoint has_prefix (p l : list byte) : bool :=
  match p, l with
  | [], _ => true
  | _ :: _, [] => false
  | a :: p', b :: l' => Byte.eqb a b && has_prefix p' l'
  end.

Definition sniff (b : list byte) : string :=
  if has_prefix (list_byte_of_string "GIF87a") b then "image/gif"
  else if has_prefix (list_byte_of_string "GIF89a") b then "image/gif"
  else if has_prefix [x89; x50; x4e; x47; x0d; x0a; x1a; x0a] b then "image/png"
  else if has_prefix [xff; xd8; xff] b then "image/jpeg"
  else if has_prefix (list_byte_of_string "BM") b then "image/bmp"
  else "application/octet-stream".

Definition u16le (lo hi : byte) : Z :=
  Z.of_N (Byte.to_N lo) + Z.shiftl (Z.of_N (Byte.to_N hi)) 8.

Definition gif_header (b : list byte) : image.Decoded :=
  {| image.consumed := 4096;
     image.outcome :=
       match b with
       | _ :: _ :: _ :: _ :: _ :: _ :: w0 :: w1 :: h0 :: h1 :: fields :: _ :: _ :: rest =>
           if has_prefix (list_byte_of_string "GIF87a") b
              || has_prefix (list_byte_of_string "GIF89a") b
           then
             let table :=
               if N.testbit (Byte.to_N fields) 7
               then (3 * 2 ^ (1 + N.to_nat (N.land (Byte.to_N fields) 7)))%nat
               else 0%nat in
             if (table <=? length rest)%nat
             then inl {| image.Width := u16le w0 w1; image.Height := u16le h0 h1 |}
             else inr (errorString "gif: reading color table: unexpected EOF")
           else inr (errorString "gif: can't recognize format")
       | _ => inr (errorString "gif: reading header: unexpected EOF")
       end |}.

Definition rejecting (name : string) (b : list byte) : image.Decoded :=
  {| image.consumed := 0; image.outcome := inr (errorString name) |}.

Definition libs : Libs := {|
  DetectContentType := sniff;
  jpeg_DecodeConfig := rejecting "jpeg";
  png_DecodeConfig := rejecting "png";
  gif_DecodeConfig := gif_header;
  tiff_DecodeConfig := rejecting "tiff";
  webp_DecodeConfig := rejecting "webp";
  bmp_DecodeConfig := rejecting "bmp"
|}.

(** A 3x2 GIF header followed by [tail]. *)
Definition gif_bytes (tail : list byte) : list byte :=
  list_byte_of_string "GIF89a" ++ [x03; x00; x02; x00; x00; x00; x00] ++ tail.

Definition gif_tail : list byte :=
  [x2c; x00; x00; x00; x00; x03; x00; x02; x00; x00; x02; x02; x44; x01; x00; x3b].

Definition upload (name : string) (bytes : list byte) (p : faults) : multipart.FileHeader :=
  {| multipart.Filename := name;
     multipart.Size := Z.of_nat (length bytes);
     multipart.content := bytes;
     multipart.open_err := None;
     multipart.io_plan := p |}.

Definition cat_gif : multipart.FileHeader := upload "cat.gif" (gif_bytes gif_tail) [].

(** The same picture with a screen size of 0x0. *)
Definition empty_screen_gif : multipart.FileHeader :=
  upload "dot.gif" (list_byte_of_string "GIF89a" ++ [x00; x00; x00; x00; x00; x00; x00] ++ gif_tail) [].

Definition notes_txt : multipart.FileHeader :=
  upload "cat.png" (list_byte_of_string "hello, world") [].

Definition broken_gif : multipart.FileHeader :=
  upload "cut.gif" (list_byte_of_string "GIF89a" ++ [x03; x00]) [].

(** [cat.gif] on a handle whose fourth call (from 1) fails. *)
Definition cat_gif_seek_fault : multipart.FileHeader :=
  upload "cat.gif" (gif_bytes gif_tail) [None; None; None; Some (Errno "EIO")].

(** A GIF of 2^31 bytes: the header, then zeros. *)
Definition huge_gif : multipart.FileHeader :=
  upload "huge.gif" (gif_bytes (repeat x00 (Z.to_nat 2147483635))) [].

(** What [Save] returns for [cat_gif] and the generated name [u1]. *)
Definition cat_gif_record : dto.PictureRequest :=
  {| dto.Name := "cat.gif";
     dto.Destination := "u1.gif";
     dto.Height := 2;
     dto.Width := 3;
     dto.Size := 29;
     dto.ContentType := "image/gif" |}.

Definition disk : os.FS :=
  {| os.dirs := {["/"; "/srv"; "/srv/images"; "/srv/images/thumbs"]};
     os.files := {["/srv/secret.txt" := list_byte_of_string "s3cr3t";
                   "/srv/images/thumbs/a.gif" := gif_bytes []]};
     os.fs_plan := [] |}.

Definition bare_disk : os.FS :=
  {| os.dirs := {["/"; "/srv"]}; os.files := ∅; os.fs_plan := [] |}.

Definition local : storage.localImageStorage := {| storage.path := "/srv/images" |}.

Definition cloud : s3.Store := {| s3.objects := ∅; s3.s3_plan := [] |}.

Definition remote : storage.s3ImageStorage :=
  {| storage.bucket := "pictures";
     storage.prefix := "img/";
     storage.cloudFrontURL := "https://cdn.example.org" |}.

(** A second picture, of 14 bytes. *)
Definition dog_gif : multipart.FileHeader := upload "dog.gif" (gif_bytes [x3b]) [].

Definition dog_gif_record : dto.PictureRequest :=
  {| dto.Name := "dog.gif";
     dto.Destination := "u2.gif";
     dto.Height := 2;
     dto.Width := 3;
     dto.Size := 14;
     dto.ContentType := "image/gif" |}.

(** An upload of no bytes, and one that cannot be opened. *)
Definition empty_upload : multipart.FileHeader := upload "empty.gif" [] [].


(** [cat.gif] on a handle whose fifth call, the reading for the copy or the
    upload, fails. *)
Definition cat_gif_copy_fault : multipart.FileHeader :=
  upload "cat.gif" (gif_bytes gif_tail) [None; None; None; None; Some (Errno "EIO")].

(** A disk on which [os.Stat] fails once, for a reason other than a missing
    entry. *)
Definition guarded_disk : os.FS :=
  {| os.dirs := {["/"; "/srv"]}; os.files := ∅; os.fs_plan := [Some (Errno "EACCES")] |}.



Definition settings : gmap string string :=
  {["storage.s3.bucket" := "pictures";
    "storage.s3.prefix" := "img";
    "storage.s3.cloudfront_url" := "https://cdn.example.org"]}.

End sample.

(** ** Observers of the stages of [Save]

    Both [Save] methods run the same steps up to the persistence step.  The
    functions of this section run these steps on an upload alone, with the
    primitives and in the order of the methods, and report how far it gets:
    they are what the statements below name "the sniffed type" and "the
    result of the header decoder". *)

Module stages.

Import multipart storage.

Section WithLibs.
Context `{Libs}.

(** What [Read] leaves in a zeroed buffer of 512 bytes when the handle is at
    the start of [b]. *)
Definition prefix_buffer (b : list byte) : list byte :=
  let n := Nat.min 512 (length b) in
  take n b ++ drop n (repeat "000"%byte 512).

(** The content type that [Save] detects, when the upload can be opened and
    its prefix read. *)
Definition sniffed (file : FileHeader) : option string :=
  match multipart.Open file with
  | inr _ => None
  | inl src =>
      match multipart.Read src (repeat "000"%byte 512) with
      | ((buf, _, None), _) => Some (DetectContentType buf)
      | ((_, _, Some _), _) => None
      end
  end.

(** The detected type and the result of the decoder registered for it, when
    the upload gets as far as the call of the decoder. *)
Definition header_decode (file : FileHeader) : option (string * (image.Config + error)) :=
  match multipart.Open file with
  | inr _ => None
  | inl src =>
      match multipart.Read src (repeat "000"%byte 512) with
      | ((_, _, Some _), _) => None
      | ((buf, _, None), src) =>
          let fileType := DetectContentType buf in
          match CONTENT_DECODERS !! fileType with
          | None => None
          | Some decoder =>
              match multipart.Seek src 0 with
              | (Some _, _) => None
              | (None, src) => Some (fileType, fst (multipart.decode decoder src))
              end
          end
      end
  end.

(** The six content types of the registry. *)
Definition supported : gset string :=
  {["image/jpeg"; "image/png"; "image/gif"; "image/tiff"; "image/webp"; "image/bmp"]}.

(** A successful [Save], by either variant. *)
Inductive Saved (unique : string) (file : FileHeader) (pic : dto.PictureRequest) : Prop :=
| Saved_local (s : localImageStorage) (m m' : os.FS) :
    local_Save s unique file m = (inl pic, m') -> Saved unique file pic
| Saved_s3 (s : s3ImageStorage) (m m' : s3.Store) :
    s3_Save s unique file m = (inl pic, m') -> Saved unique file pic.

End WithLibs.

End stages.

(** ** Properties *)

Import multipart storage stages.

Section Properties.
Context `{Libs}.

(** *** The stages, spelled out *)

Lemma next_fault_fst (p : faults) : fst (next_fault p) = fault_at 0 p.
Proof. by destruct p. Qed.

Lemma next_fault_snd (p : faults) : snd (next_fault p) = drop 1 p.
Proof. by destruct p. Qed.

Lemma fault_at_drop (i j : nat) (p : faults) :
  fault_at i (drop j p) = fault_at (j + i) p.
Proof. unfold fault_at. by rewrite lookup_drop. Qed.

Lemma Read_start (file : FileHeader) (src : File) :
  multipart.Open file = inl src ->
  fault_at 0 (io_plan file) = None ->
  content file <> [] ->
  multipart.Read src (repeat "000"%byte 512)
  = ((prefix_buffer (content file), Nat.min 512 (length (content file)), None),
     {| data := content file;
        pos := Nat.min 512 (length (content file));
        plan := drop 1 (io_plan file) |}).
Proof.
  unfold multipart.Open. destruct (open_err file); [done|].
  intros [= <-] Hf Hc. unfold multipart.Read. cbn [plan data pos].
  rewrite (surjective_pairing (next_fault (io_plan file))).
  rewrite next_fault_fst, next_fault_snd, Hf.
  rewrite drop_0. destruct (content file) as [|b bs] eqn:Hb; [done|].
  unfold prefix_buffer. by rewrite repeat_length.
Qed.

(** The sniffed type is the one of the zero-padded prefix of the content,
    and there is one exactly when the upload opens, its first read meets no
    fault, and it is not empty. *)
Lemma sniffed_spec (file : FileHeader) (t : string) :
  sniffed file = Some t <->
  open_err file = None /\ fault_at 0 (io_plan file) = None /\ content file <> [] /\
  t = DetectContentType (prefix_buffer (content file)).
Proof.
  unfold sniffed. split.
  - destruct (multipart.Open file) as [src|] eqn:Ho; [|done].
    assert (open_err file = None) as Hoe.
    { unfold multipart.Open in Ho. by destruct (open_err file). }
    unfold multipart.Open in Ho. rewrite Hoe in Ho. injection Ho as <-.
    unfold multipart.Read. cbn [plan data pos].
    rewrite (surjective_pairing (next_fault (io_plan file))), next_fault_fst.
    destruct (fault_at 0 (io_plan file)); [done|].
    rewrite drop_0. destruct (content file) as [|b bs] eqn:Hb; [done|].
    intros [= <-]. by repeat split.
  - intros (Hoe & Hf & Hc & ->).
    assert (multipart.Open file
            = inl {| data := content file; pos := 0; plan := io_plan file |}) as Ho.
    { unfold multipart.Open. by rewrite Hoe. }
    rewrite Ho. by rewrite (Read_start _ _ Ho Hf Hc).
Qed.

Lemma sniffed_inv (file : FileHeader) (t : string) :
  sniffed file = Some t ->
  exists src buf n src',
    multipart.Open file = inl src /\
    multipart.Read src (repeat "000"%byte 512) = ((buf, n, None), src') /\
    DetectContentType buf = t.
Proof.
  unfold sniffed. destruct (multipart.Open file) as [src|]; [|done].
  destruct (multipart.Read src _) as [[[buf n] [e|]] src'] eqn:Hr; [done|].
  intros [= <-]. by exists src, buf, n, src'.
Qed.

Lemma header_decode_inv (file : FileHeader) (t : string) (r : image.Config + error) :
  header_decode file = Some (t, r) ->
  exists src buf n src1 decoder src2 src3,
    multipart.Open file = inl src /\
    multipart.Read src (repeat "000"%byte 512) = ((buf, n, None), src1) /\
    DetectContentType buf = t /\
    CONTENT_DECODERS !! t = Some decoder /\
    multipart.Seek src1 0 = (None, src2) /\
    multipart.decode decoder src2 = (r, src3).
Proof.
  unfold header_decode. destruct (multipart.Open file) as [src|]; [|done].
  destruct (multipart.Read src _) as [[[buf n] [e|]] src1] eqn:Hr; [done|].
  destruct (CONTENT_DECODERS !! DetectContentType buf) as [decoder|] eqn:Hd; [|done].
  destruct (multipart.Seek src1 0) as [[e|] src2] eqn:Hs; [done|].
  destruct (multipart.decode decoder src2) as [r' src3] eqn:Hdec.
  intros [= <- <-]. by exists src, buf, n, src1, decoder, src2, src3.
Qed.

Lemma header_decode_sniffed (file : FileHeader) (t : string) (r : image.Config + error) :
  header_decode file = Some (t, r) -> sniffed file = Some t.
Proof.
  intros (src & buf & n & src1 & d & src2 & src3 & Ho & Hr & Ht & _)%header_decode_inv.
  unfold sniffed. by rewrite Ho, Hr, Ht.
Qed.

(** The decoder called is the one registered for the sniffed type; it runs
    on the whole content, after a reset that met no fault; a fault of the
    handle during its reads is its result. *)
Lemma header_decode_spec (file : FileHeader) (t : string) (r : image.Config + error) :
  header_decode file = Some (t, r) <->
  sniffed file = Some t /\
  fault_at 1 (io_plan file) = None /\
  exists decoder, CONTENT_DECODERS !! t = Some decoder /\
    r = match fault_at 2 (io_plan file) with
        | Some err => inr err
        | None => image.outcome (decoder (content file))
        end.
Proof.
  split.
  - intros Hd. pose proof (header_decode_sniffed _ _ _ Hd) as Hs.
    split; [done|]. apply sniffed_spec in Hs as (Hoe & Hf & Hc & Ht).
    revert Hd. unfold header_decode.
    assert (multipart.Open file
            = inl {| data := content file; pos := 0; plan := io_plan file |}) as Ho.
    { unfold multipart.Open. by rewrite Hoe. }
    rewrite Ho, (Read_start _ _ Ho Hf Hc), <- Ht.
    destruct (CONTENT_DECODERS !! t) as [decoder|]; [|done].
    unfold multipart.Seek, multipart.decode. cbn [plan data pos].
    rewrite (surjective_pairing (next_fault (drop 1 (io_plan file)))).
    rewrite next_fault_fst, next_fault_snd, fault_at_drop, drop_drop. cbn [Nat.add].
    destruct (fault_at 1 (io_plan file)); [done|]. cbn [plan data pos].
    rewrite (surjective_pairing (next_fault (drop 2 (io_plan file)))).
    rewrite next_fault_fst, fault_at_drop. cbn [Nat.add].
    destruct (fault_at 2 (io_plan file)); cbn [fst]; intros [= <-]; eauto.
  - intros (Hs & Hf1 & decoder & Hd & ->).
    apply sniffed_spec in Hs as (Hoe & Hf & Hc & Ht).
    unfold header_decode.
    assert (multipart.Open file
            = inl {| data := content file; pos := 0; plan := io_plan file |}) as Ho.
    { unfold multipart.Open. by rewrite Hoe. }
    rewrite Ho, (Read_start _ _ Ho Hf Hc), <- Ht, Hd.
    unfold multipart.Seek, multipart.decode. cbn [plan data pos].
    rewrite (surjective_pairing (next_fault (drop 1 (io_plan file)))).
    rewrite next_fault_fst, next_fault_snd, fault_at_drop, drop_drop. cbn [Nat.add].
    rewrite Hf1. cbn [plan data pos].
    rewrite (surjective_pairing (next_fault (drop 2 (io_plan file)))).
    rewrite next_fault_fst, fault_at_drop. cbn [Nat.add].
    by destruct (fault_at 2 (io_plan file)).
Qed.

(** *** The registry *)

Lemma CONTENT_DECODERS_dom : dom CONTENT_DECODERS = supported.
Proof.
  unfold CONTENT_DECODERS, supported. rewrite !dom_insert_L, dom_empty_L. set_solver.
Qed.

Lemma CONTENT_DECODERS_None (t : string) :
  t ∉ supported -> CONTENT_DECODERS !! t = None.
Proof. rewrite <- CONTENT_DECODERS_dom. apply not_elem_of_dom. Qed.

(** *** Rejections before the persistence step *)

Lemma unsupported_type_is_client_error_aux
    (file : FileHeader) (t unique : string)
    (sl : localImageStorage) (ml : os.FS) (sr : s3ImageStorage) (mr : s3.Store) :
  sniffed file = Some t ->
  t ∉ dom CONTENT_DECODERS ->
  local_Save sl unique file ml
  = (inr {| dto.StatusCode := 400;
            dto.Error := errorString "unsupported format";
            dto.Data := {["format" := t]} |}, ml)
  /\ s3_Save sr unique file mr
  = (inr {| dto.StatusCode := 400;
            dto.Error := errorString "unsupported image format";
            dto.Data := {["format" := t]} |}, mr).
Proof.
  intros (src & buf & n & src' & Ho & Hr & Ht)%sniffed_inv Hd%not_elem_of_dom.
  unfold local_Save, s3_Save. by rewrite Ho, Hr, Ht, Hd.
Qed.

(** C2. An upload whose sniffed content type is not a key of the decoder
    registry is rejected by both variants with status 400 and the detected
    type under ["format"] in the diagnostic data; the medium returned is the
    medium given, so the persistence step was not reached and nothing new
    can be fetched from it. *)
Theorem unsupported_type_is_client_error
    (file : FileHeader) (t unique : string)
    (sl : localImageStorage) (ml : os.FS) (sr : s3ImageStorage) (mr : s3.Store) :
  sniffed file = Some t ->
  t ∉ dom CONTENT_DECODERS ->
  local_Save sl unique file ml
  = (inr {| dto.StatusCode := 400;
            dto.Error := errorString "unsupported format";
            dto.Data := {["format" := t]} |}, ml)
  /\ s3_Save sr unique file mr
  = (inr {| dto.StatusCode := 400;
            dto.Error := errorString "unsupported image format";
            dto.Data := {["format" := t]} |}, mr).
Proof. apply unsupported_type_is_client_error_aux. Qed.

(** C3. An upload whose sniffed type is in the registry and whose header
    decoder fails is rejected by both variants with status 500, the detected
    type under ["format"] in the diagnostic data and the decoder's error as
    the cause; the medium returned is the medium given: nothing is
    persisted. *)
Theorem corrupt_header_is_server_error
    (file : FileHeader) (t unique : string) (err : error)
    (sl : localImageStorage) (ml : os.FS) (sr : s3ImageStorage) (mr : s3.Store) :
  header_decode file = Some (t, inr err) ->
  t ∈ dom CONTENT_DECODERS
  /\ local_Save sl unique file ml
  = (inr {| dto.StatusCode := 500;
            dto.Error := err;
            dto.Data := {["format" := t]} |}, ml)
  /\ s3_Save sr unique file mr
  = (inr {| dto.StatusCode := 500;
            dto.Error := wrapError "decode error: " err;
            dto.Data := {["format" := t]} |}, mr).
Proof.
  intros (src & buf & n & src1 & d & src2 & src3 & Ho & Hr & Ht & Hd & Hs & Hdec)%header_decode_inv.
  split; [by apply elem_of_dom; eexists|].
  unfold local_Save, s3_Save. by rewrite Ho, Hr, Ht, Hd, Hs, Hdec.
Qed.

(** C6. The registry has exactly the six keys image/jpeg, image/png,
    image/gif, image/tiff, image/webp and image/bmp, each bound to the
    header decoder of its format, and an upload sniffed as any other type is
    rejected by both variants with status 400 and the detected type in the
    diagnostic data. *)
Theorem registry_has_six_formats
    (file : FileHeader) (t unique : string)
    (sl : localImageStorage) (ml : os.FS) (sr : s3ImageStorage) (mr : s3.Store) :
  sniffed file = Some t ->
  t ∉ supported ->
  (dom CONTENT_DECODERS = supported
   /\ size CONTENT_DECODERS = 6%nat
   /\ CONTENT_DECODERS !! "image/jpeg" = Some jpeg_DecodeConfig
   /\ CONTENT_DECODERS !! "image/png" = Some png_DecodeConfig
   /\ CONTENT_DECODERS !! "image/gif" = Some gif_DecodeConfig
   /\ CONTENT_DECODERS !! "image/tiff" = Some tiff_DecodeConfig
   /\ CONTENT_DECODERS !! "image/webp" = Some webp_DecodeConfig
   /\ CONTENT_DECODERS !! "image/bmp" = Some bmp_DecodeConfig)
  /\ (exists e, fst (local_Save sl unique file ml) = inr e
        /\ dto.StatusCode e = http.StatusBadRequest /\ dto.Data e !! "format" = Some t)
  /\ (exists e, fst (s3_Save sr unique file mr) = inr e
        /\ dto.StatusCode e = http.StatusBadRequest /\ dto.Data e !! "format" = Some t).
Proof.
  intros Hs Ht. split.
  - split; [apply CONTENT_DECODERS_dom|].
    split; [|by repeat split; vm_compute].
    rewrite <- size_dom, CONTENT_DECODERS_dom. by vm_compute.
  - rewrite <- CONTENT_DECODERS_dom in Ht.
    destruct (unsupported_type_is_client_error_aux file t unique sl ml sr mr Hs Ht) as [-> ->].
    split; eexists; (split; [done|]); split; try done; apply lookup_singleton_eq.
Qed.

(** *** Locators *)

Lemma append_empty_r (s : string) : s +:+ EmptyString = s.
Proof.
  induction s as [|c s IH]; [done|].
  change (String c (s +:+ EmptyString) = String c s). by rewrite IH.
Qed.

Lemma append_assoc (a b c : string) : (a +:+ b) +:+ c = a +:+ b +:+ c.
Proof.
  induction a as [|x a IH]; [done|].
  change (String x ((a +:+ b) +:+ c) = String x (a +:+ b +:+ c)). by rewrite IH.
Qed.

Lemma Sprintf_locator (a b c : string) :
  fmt.Sprintf "%s/%s%s" [a; b; c] = a +:+ "/" +:+ b +:+ c.
Proof. cbn. by rewrite append_empty_r. Qed.

(** C9. [GetFullPath] is a function of the backend value and the key alone:
    the method of the interface takes no medium and returns a string, not an
    error, so two calls with one key give one locator.  For the local
    variant the locator is root, "/", key; for the S3 variant it is the
    CloudFront base, "/", the prefix, the key. *)
Theorem GetFullPath_is_pure_concatenation
    (sl : localImageStorage) (sr : s3ImageStorage) (key : string) :
  GetFullPath sl key = path sl +:+ "/" +:+ key
  /\ GetFullPath sr key = cloudFrontURL sr +:+ "/" +:+ prefix sr +:+ key.
Proof. split; [done | apply Sprintf_locator]. Qed.

Lemma local_key_is_used_verbatim_aux
    (s : localImageStorage) (key : string) (m : os.FS) (b : list byte) :
  os.files m !! (path s +:+ "/" +:+ key) = Some b ->
  fault_at 0 (os.fs_plan m) = None -> fault_at 1 (os.fs_plan m) = None ->
  fst (local_Get s key m) = (b, None).
Proof.
  intros Hb H0 H1. unfold local_Get, local_GetFullPath, os.Open.
  rewrite (surjective_pairing (next_fault (os.fs_plan m))).
  rewrite next_fault_fst, next_fault_snd, H0.
  assert (os.exists_at m (path s +:+ "/" +:+ key) = true) as ->.
  { unfold os.exists_at. rewrite (bool_decide_eq_true_2 (is_Some _)); [|by eexists].
    apply orb_true_r. }
  unfold os.ReadAll. cbn [os.with_plan os.fs_plan os.files].
  rewrite (surjective_pairing (next_fault (drop 1 (os.fs_plan m)))).
  rewrite next_fault_fst, fault_at_drop. cbn [Nat.add]. by rewrite H1, Hb.
Qed.

(** C10. For every key, separators and dot-dot segments included, the
    local [GetFullPath] is the literal concatenation root, "/", key: distinct
    keys give distinct paths, a key with a separator gives a path below a
    subdirectory of the root, a key starting with "../" a path through the
    parent of the root.  [Get] hands exactly that path to [os.Open] and
    returns what [ReadAll] reads from it: whatever file the medium has at
    that path is returned. *)
Theorem local_key_is_used_verbatim
    (s : localImageStorage) (key : string) (m : os.FS) :
  local_GetFullPath s key = path s +:+ "/" +:+ key
  /\ (forall key', local_GetFullPath s key' = local_GetFullPath s key -> key' = key)
  /\ (forall dir name, key = dir +:+ "/" +:+ name ->
        local_GetFullPath s key = (path s +:+ "/" +:+ dir) +:+ "/" +:+ name)
  /\ (forall rest, key = "../" +:+ rest ->
        local_GetFullPath s key = path s +:+ "/../" +:+ rest)
  /\ local_Get s key m
      = (let (opened, m1) := os.Open m (path s +:+ "/" +:+ key) in
         match opened with
         | inr err => (([], Some err), m1)
         | inl file => os.ReadAll m1 file
         end)
  /\ (forall b, os.files m !! (path s +:+ "/" +:+ key) = Some b ->
        fault_at 0 (os.fs_plan m) = None -> fault_at 1 (os.fs_plan m) = None ->
        fst (local_Get s key m) = (b, None)).
Proof.
  split; [done|]. split.
  { unfold local_GetFullPath. intros key' Hk.
    apply (inj (String.app (path s))) in Hk. by apply (inj (String.app "/")) in Hk. }
  split.
  { intros dir name ->. unfold local_GetFullPath. by rewrite !append_assoc. }
  split.
  { by intros rest ->. }
  split; [done|].
  intros b. apply local_key_is_used_verbatim_aux.
Qed.

(** *** Errors of [Get] *)

(** C5. The S3 [Get] turns a failed fetch whose error chain carries the
    code NoSuchKey into [S3NotFoundError] of the key, and any other failed
    fetch, as well as a failed read of the body, into [S3DownloadError] of
    the key and the cause; the two kinds differ.  The local [Get] returns
    the error of [os.Open], whatever it is, and the error of [ReadAll], as
    they are: it has one way of failing and adds no kind of its own. *)
Theorem get_error_kinds
    (sr : s3ImageStorage) (sl : localImageStorage) (key : string)
    (mr : s3.Store) (ml : os.FS) :
  (forall cause mr',
      s3.GetObject mr (bucket sr) (prefix sr +:+ key) = (inr cause, mr') ->
      as_ErrorCode cause = Some "NoSuchKey" ->
      s3_Get sr key mr = (([], Some (S3NotFoundError key)), mr'))
  /\ (forall cause mr',
      s3.GetObject mr (bucket sr) (prefix sr +:+ key) = (inr cause, mr') ->
      as_ErrorCode cause <> Some "NoSuchKey" ->
      s3_Get sr key mr = (([], Some (S3DownloadError key cause)), mr'))
  /\ (forall resp m1 cause mr',
      s3.GetObject mr (bucket sr) (prefix sr +:+ key) = (inl resp, m1) ->
      s3.ReadBody m1 resp = (inr cause, mr') ->
      s3_Get sr key mr = (([], Some (S3DownloadError key cause)), mr'))
  /\ (forall cause, S3NotFoundError key <> S3DownloadError key cause)
  /\ (forall cause ml',
      os.Open ml (path sl +:+ "/" +:+ key) = (inr cause, ml') ->
      local_Get sl key ml = (([], Some cause), ml'))
  /\ (forall file m1 b cause ml',
      os.Open ml (path sl +:+ "/" +:+ key) = (inl file, m1) ->
      os.ReadAll m1 file = ((b, Some cause), ml') ->
      local_Get sl key ml = ((b, Some cause), ml'))
  /\ (forall b e ml',
      local_Get sl key ml = ((b, Some e), ml') ->
      fst (os.Open ml (path sl +:+ "/" +:+ key)) = inr e
      \/ exists file m1, os.Open ml (path sl +:+ "/" +:+ key) = (inl file, m1)
                         /\ snd (fst (os.ReadAll m1 file)) = Some e).
Proof.
  repeat split.
  - intros cause mr' Hg Hc. unfold s3_Get. by rewrite Hg, Hc.
  - intros cause mr' Hg Hc. unfold s3_Get. rewrite Hg.
    destruct (as_ErrorCode cause) as [code|]; [|done].
    destruct (String.eqb code "NoSuchKey") eqn:He; [|done].
    apply String.eqb_eq in He. by subst code.
  - intros resp m1 cause mr' Hg Hb. unfold s3_Get. by rewrite Hg, Hb.
  - done.
  - intros cause ml' Ho. unfold local_Get, local_GetFullPath. by rewrite Ho.
  - intros file m1 b cause ml' Ho Hr. unfold local_Get, local_GetFullPath. by rewrite Ho.
  - intros b e ml'. unfold local_Get, local_GetFullPath.
    destruct (os.Open ml _) as [[file|err] m1]; [|intros [= <- <- <-]; by left].
    intros Hr. right. exists file, m1. by rewrite Hr.
Qed.

(** X22. A file that is missing is reported by the local [Get] with the
    error of [os.Open] itself, which names the full path. *)
Lemma local_Get_missing (s : localImageStorage) (key : string) (m : os.FS) :
  fault_at 0 (os.fs_plan m) = None ->
  os.exists_at m (path s +:+ "/" +:+ key) = false ->
  fst (local_Get s key m)
  = ([], Some (PathError "open" (path s +:+ "/" +:+ key) (Errno "ENOENT"))).
Proof.
  intros H0 He. unfold local_Get, local_GetFullPath, os.Open.
  rewrite (surjective_pairing (next_fault (os.fs_plan m))).
  by rewrite next_fault_fst, H0, He.
Qed.

(** X21. A key that was never stored is reported by the S3 [Get] as not
    found, with the key as the caller gave it. *)
Lemma s3_Get_missing (s : s3ImageStorage) (key : string) (m : s3.Store) :
  fault_at 0 (s3.s3_plan m) = None ->
  s3.objects m !! (bucket s, prefix s +:+ key) = None ->
  fst (s3_Get s key m) = ([], Some (S3NotFoundError key)).
Proof.
  intros H0 Hk. unfold s3_Get, s3.GetObject.
  rewrite (surjective_pairing (next_fault (s3.s3_plan m))).
  by rewrite next_fault_fst, H0, Hk.
Qed.

(** *** The primitives in closed form *)

Lemma Seek_eq (src : File) (offset : nat) :
  multipart.Seek src offset
  = (fault_at 0 (plan src),
     {| data := data src;
        pos := match fault_at 0 (plan src) with Some _ => pos src | None => offset end;
        plan := drop 1 (plan src) |}).
Proof.
  unfold multipart.Seek. rewrite (surjective_pairing (next_fault (plan src))).
  rewrite next_fault_fst, next_fault_snd. by destruct (fault_at 0 (plan src)).
Qed.

Lemma decode_eq (decoder : Decoder) (src : File) :
  multipart.decode decoder src
  = (match fault_at 0 (plan src) with
     | Some err => inr err
     | None => image.outcome (decoder (drop (pos src) (data src)))
     end,
     {| data := data src;
        pos := match fault_at 0 (plan src) with
               | Some _ => pos src
               | None =>
                   (pos src + Nat.min (image.consumed (decoder (drop (pos src) (data src))))
                                      (length (drop (pos src) (data src))))%nat
               end;
        plan := drop 1 (plan src) |}).
Proof.
  unfold multipart.decode. rewrite (surjective_pairing (next_fault (plan src))).
  rewrite next_fault_fst, next_fault_snd. by destruct (fault_at 0 (plan src)).
Qed.

Lemma read_to_end_eq (src : File) :
  multipart.read_to_end src
  = (match fault_at 0 (plan src) with
     | Some err => inr err
     | None => inl (drop (pos src) (data src))
     end,
     {| data := data src;
        pos := match fault_at 0 (plan src) with
               | Some _ => pos src
               | None => Nat.max (pos src) (length (data src))
               end;
        plan := drop 1 (plan src) |}).
Proof.
  unfold multipart.read_to_end. rewrite (surjective_pairing (next_fault (plan src))).
  rewrite next_fault_fst, next_fault_snd. by destruct (fault_at 0 (plan src)).
Qed.

Lemma Create_inv (m m1 : os.FS) (fullPath out : string) :
  os.Create m fullPath = (inl out, m1) ->
  out = fullPath /\ fault_at 0 (os.fs_plan m) = None /\
  (fullPath ∉ os.dirs m) /\ (filepath.parent fullPath ∈ os.dirs m) /\
  m1 = {| os.dirs := os.dirs m;
          os.files := <[fullPath := []]> (os.files m);
          os.fs_plan := drop 1 (os.fs_plan m) |}.
Proof.
  unfold os.Create. rewrite (surjective_pairing (next_fault (os.fs_plan m))).
  rewrite next_fault_fst, next_fault_snd.
  destruct (fault_at 0 (os.fs_plan m)); [done|].
  case_bool_decide; [done|]. case_bool_decide; [|done].
  by intros [= <- <-].
Qed.

Lemma Create_intro (m : os.FS) (fullPath : string) :
  fault_at 0 (os.fs_plan m) = None ->
  fullPath ∉ os.dirs m -> filepath.parent fullPath ∈ os.dirs m ->
  os.Create m fullPath
  = (inl fullPath,
     {| os.dirs := os.dirs m;
        os.files := <[fullPath := []]> (os.files m);
        os.fs_plan := drop 1 (os.fs_plan m) |}).
Proof.
  intros H0 Hd Hp. unfold os.Create.
  rewrite (surjective_pairing (next_fault (os.fs_plan m))).
  rewrite next_fault_fst, next_fault_snd, H0.
  by rewrite bool_decide_eq_false_2, bool_decide_eq_true_2.
Qed.

(** [os.Create] never makes a directory. *)
Lemma Create_dirs (m : os.FS) (fullPath : string) :
  os.dirs (snd (os.Create m fullPath)) = os.dirs m.
Proof.
  unfold os.Create. rewrite (surjective_pairing (next_fault (os.fs_plan m))).
  destruct (fst (next_fault (os.fs_plan m))); [done|].
  by repeat case_bool_decide.
Qed.

Lemma Write_eq (m : os.FS) (out : string) (b : list byte) :
  os.Write m out b
  = (fault_at 0 (os.fs_plan m),
     match fault_at 0 (os.fs_plan m) with
     | Some _ => os.with_plan m (drop 1 (os.fs_plan m))
     | None =>
         {| os.dirs := os.dirs m;
            os.files := <[out := default [] (os.files m !! out) ++ b]> (os.files m);
            os.fs_plan := drop 1 (os.fs_plan m) |}
     end).
Proof.
  unfold os.Write. rewrite (surjective_pairing (next_fault (os.fs_plan m))).
  rewrite next_fault_fst, next_fault_snd. by destruct (fault_at 0 (os.fs_plan m)).
Qed.

Lemma Copy_dirs (m : os.FS) (out : string) (src : File) :
  os.dirs (snd (os.Copy m out src)) = os.dirs m.
Proof.
  unfold os.Copy. rewrite read_to_end_eq.
  destruct (fault_at 0 (plan src)); [done|].
  rewrite Write_eq. by destruct (fault_at 0 (os.fs_plan m)).
Qed.

(** The handle and the result after the call of the decoder, from the
    equations of the steps before it. *)
Lemma decode_stage_inv (file : FileHeader) (src src1 src2 src3 : File)
    (buf : list byte) (n : nat) (t : string) (decoder : Decoder)
    (dec : image.Config + error) :
  multipart.Open file = inl src ->
  multipart.Read src (repeat "000"%byte 512) = ((buf, n, None), src1) ->
  DetectContentType buf = t ->
  multipart.Seek src1 0 = (None, src2) ->
  multipart.decode decoder src2 = (dec, src3) ->
  sniffed file = Some t /\
  open_err file = None /\
  fault_at 0 (io_plan file) = None /\
  fault_at 1 (io_plan file) = None /\
  dec = match fault_at 2 (io_plan file) with
        | Some err => inr err
        | None => image.outcome (decoder (content file))
        end /\
  src3 = {| data := content file;
            pos := match fault_at 2 (io_plan file) with
                   | Some _ => 0
                   | None => Nat.min (image.consumed (decoder (content file)))
                                     (length (content file))
                   end;
            plan := drop 3 (io_plan file) |}.
Proof.
  intros Ho Hr Ht Hs Hdec.
  assert (sniffed file = Some t) as Hsn.
  { unfold sniffed. by rewrite Ho, Hr, Ht. }
  pose proof Hsn as (Hoe & H0 & Hc & _)%sniffed_spec.
  rewrite (Read_start _ _ Ho H0 Hc) in Hr. injection Hr as _ _ <-.
  rewrite Seek_eq in Hs. cbn [plan data pos] in Hs.
  rewrite fault_at_drop in Hs. cbn [Nat.add] in Hs.
  injection Hs as H1 <-. rewrite H1 in Hdec.
  rewrite decode_eq in Hdec. cbn [plan data pos] in Hdec.
  rewrite drop_drop, fault_at_drop, drop_0 in Hdec. cbn [Nat.add] in Hdec.
  injection Hdec as <- <-. repeat split; try done.
  by rewrite drop_drop.
Qed.

(** *** What a successful [Save] did *)

(** The local [Save] succeeds only if every step but the reset before the
    copy met no fault; the file it leaves holds the content from the offset
    at which the copy started: 0 if that reset worked, the offset where the
    decoder stopped if not. *)
Lemma local_Save_ok_inv (s : localImageStorage) (unique : string) (file : FileHeader)
    (m m' : os.FS) (pic : dto.PictureRequest) :
  local_Save s unique file m = (inl pic, m') ->
  exists t decoder cfg,
    header_decode file = Some (t, inl cfg) /\
    CONTENT_DECODERS !! t = Some decoder /\
    image.outcome (decoder (content file)) = inl cfg /\
    fault_at 2 (io_plan file) = None /\
    fault_at 4 (io_plan file) = None /\
    pic = {| dto.Name := Filename file;
             dto.Destination := unique +:+ filepath.Ext (Filename file);
             dto.Height := int32 (image.Height cfg);
             dto.Width := int32 (image.Width cfg);
             dto.Size := int32 (multipart.Size file);
             dto.ContentType := t |} /\
    fault_at 0 (os.fs_plan m) = None /\
    fault_at 1 (os.fs_plan m) = None /\
    (path s +:+ "/" +:+ unique +:+ filepath.Ext (Filename file) ∉ os.dirs m) /\
    (filepath.parent (path s +:+ "/" +:+ unique +:+ filepath.Ext (Filename file))
       ∈ os.dirs m) /\
    m' = {| os.dirs := os.dirs m;
            os.files :=
              <[path s +:+ "/" +:+ unique +:+ filepath.Ext (Filename file) :=
                  drop (match fault_at 3 (io_plan file) with
                        | Some _ => Nat.min (image.consumed (decoder (content file)))
                                            (length (content file))
                        | None => 0%nat
                        end) (content file)]> (os.files m);
            os.fs_plan := drop 2 (os.fs_plan m) |}.
Proof.
  unfold local_Save, local_GetFullPath.
  destruct (multipart.Open file) as [src|] eqn:Ho; [|done].
  destruct (multipart.Read src _) as [[[buf n] [e|]] src1] eqn:Hr; [done|].
  destruct (CONTENT_DECODERS !! DetectContentType buf) as [decoder|] eqn:Hd; [|done].
  destruct (multipart.Seek src1 0) as [[e|] src2] eqn:Hs; [done|].
  destruct (multipart.decode decoder src2) as [[cfg|e] src3] eqn:Hdec; [|done].
  destruct (decode_stage_inv _ _ _ _ _ _ _ _ _ _ Ho Hr eq_refl Hs Hdec)
    as (Hsn & Hoe & H0 & H1 & Hcfg & ->).
  destruct (fault_at 2 (io_plan file)) eqn:H2; [done|].
  destruct (os.Create m _) as [[out|e] m1] eqn:Hc; [|done].
  apply Create_inv in Hc as (-> & Hf0 & Hnd & Hpd & ->).
  rewrite Seek_eq. cbn [plan data pos]. unfold os.Copy.
  rewrite read_to_end_eq. cbn [plan data pos].
  rewrite drop_drop, !fault_at_drop. cbn [Nat.add].
  destruct (fault_at 4 (io_plan file)) eqn:H4; [done|].
  rewrite Write_eq. cbn [os.fs_plan os.files os.dirs].
  rewrite fault_at_drop, drop_drop. cbn [Nat.add].
  destruct (fault_at 1 (os.fs_plan m)) eqn:Hf1; [done|].
  intros [= <- <-]. exists (DetectContentType buf), decoder, cfg.
  split; [apply header_decode_spec; rewrite H2; eauto 10|].
  repeat split; try done.
  rewrite lookup_insert_eq, insert_insert_eq. cbn [default app].
  by destruct (fault_at 3 (io_plan file)).
Qed.

(** The S3 [Save] succeeds only if every step met no fault; the object it
    leaves holds the whole content, the sniffed type and the private ACL. *)
Lemma s3_Save_ok_inv (s : s3ImageStorage) (unique : string) (file : FileHeader)
    (m m' : s3.Store) (pic : dto.PictureRequest) :
  s3_Save s unique file m = (inl pic, m') ->
  exists t decoder cfg,
    header_decode file = Some (t, inl cfg) /\
    CONTENT_DECODERS !! t = Some decoder /\
    image.outcome (decoder (content file)) = inl cfg /\
    fault_at 2 (io_plan file) = None /\
    fault_at 3 (io_plan file) = None /\
    fault_at 4 (io_plan file) = None /\
    pic = {| dto.Name := Filename file;
             dto.Destination := unique +:+ filepath.Ext (Filename file);
             dto.Height := int32 (image.Height cfg);
             dto.Width := int32 (image.Width cfg);
             dto.Size := int32 (multipart.Size file);
             dto.ContentType := t |} /\
    fault_at 0 (s3.s3_plan m) = None /\
    m' = {| s3.objects :=
              <[(bucket s, prefix s +:+ unique +:+ filepath.Ext (Filename file)) :=
                  {| s3.Body := content file;
                     s3.ContentType := t;
                     s3.ACL := s3.ObjectCannedACLPrivate |}]> (s3.objects m);
            s3.s3_plan := drop 1 (s3.s3_plan m) |}.
Proof.
  unfold s3_Save.
  destruct (multipart.Open file) as [src|] eqn:Ho; [|done].
  destruct (multipart.Read src _) as [[[buf n] [e|]] src1] eqn:Hr; [done|].
  destruct (CONTENT_DECODERS !! DetectContentType buf) as [decoder|] eqn:Hd; [|done].
  destruct (multipart.Seek src1 0) as [[e|] src2] eqn:Hs; [done|].
  destruct (multipart.decode decoder src2) as [[cfg|e] src3] eqn:Hdec; [|done].
  destruct (decode_stage_inv _ _ _ _ _ _ _ _ _ _ Ho Hr eq_refl Hs Hdec)
    as (Hsn & Hoe & H0 & H1 & Hcfg & ->).
  destruct (fault_at 2 (io_plan file)) eqn:H2; [done|].
  rewrite Seek_eq. cbn [plan data pos]. rewrite fault_at_drop. cbn [Nat.add].
  destruct (fault_at 3 (io_plan file)) eqn:H3; [done|].
  unfold s3.Upload. cbn [s3.UploadBody s3.Bucket s3.Key s3.UploadContentType s3.UploadACL].
  rewrite read_to_end_eq. cbn [plan data pos].
  rewrite drop_drop, fault_at_drop. cbn [Nat.add].
  destruct (fault_at 4 (io_plan file)) eqn:H4; [done|].
  rewrite (surjective_pairing (next_fault (s3.s3_plan m))).
  rewrite next_fault_fst, next_fault_snd.
  destruct (fault_at 0 (s3.s3_plan m)) eqn:Hf0; [done|].
  intros [= <- <-]. exists (DetectContentType buf), decoder, cfg.
  split; [apply header_decode_spec; rewrite H2; eauto 10|].
  by repeat split.
Qed.

(** Conversely, the S3 [Save] of an upload whose header decodes succeeds
    when the reset before the upload, the reading of the body and the
    service meet no fault. *)
Lemma s3_Save_ok_intro (s : s3ImageStorage) (unique : string) (file : FileHeader)
    (m : s3.Store) (t : string) (cfg : image.Config) :
  header_decode file = Some (t, inl cfg) ->
  fault_at 3 (io_plan file) = None ->
  fault_at 4 (io_plan file) = None ->
  fault_at 0 (s3.s3_plan m) = None ->
  s3_Save s unique file m
  = (inl {| dto.Name := Filename file;
            dto.Destination := unique +:+ filepath.Ext (Filename file);
            dto.Height := int32 (image.Height cfg);
            dto.Width := int32 (image.Width cfg);
            dto.Size := int32 (multipart.Size file);
            dto.ContentType := t |},
     {| s3.objects :=
          <[(bucket s, prefix s +:+ unique +:+ filepath.Ext (Filename file)) :=
              {| s3.Body := content file;
                 s3.ContentType := t;
                 s3.ACL := s3.ObjectCannedACLPrivate |}]> (s3.objects m);
        s3.s3_plan := drop 1 (s3.s3_plan m) |}).
Proof.
  intros Hhd H3 H4 Hf0.
  pose proof Hhd as (src & buf & n & src1 & d & src2 & src3 & Ho & Hr & Ht & Hd & Hs & Hdec)%header_decode_inv.
  destruct (decode_stage_inv _ _ _ _ _ _ _ _ _ _ Ho Hr Ht Hs Hdec)
    as (Hsn & Hoe & H0 & H1 & Hcfg & ->).
  unfold s3_Save. rewrite Ho, Hr, Ht, Hd, Hs, Hdec.
  rewrite Seek_eq. cbn [plan data pos]. rewrite fault_at_drop. cbn [Nat.add].
  rewrite H3. unfold s3.Upload.
  cbn [s3.UploadBody s3.Bucket s3.Key s3.UploadContentType s3.UploadACL].
  rewrite read_to_end_eq. cbn [plan data pos].
  rewrite drop_drop, fault_at_drop. cbn [Nat.add]. rewrite H4.
  rewrite (surjective_pairing (next_fault (s3.s3_plan m))).
  by rewrite next_fault_fst, next_fault_snd, Hf0.
Qed.

(** Conversely, the local [Save] of an upload whose header decodes
    succeeds when the copy and the two calls on the medium meet no fault and
    the path is free to be created. *)
Lemma local_Save_ok_intro (s : localImageStorage) (unique : string) (file : FileHeader)
    (m : os.FS) (t : string) (cfg : image.Config) :
  header_decode file = Some (t, inl cfg) ->
  fault_at 4 (io_plan file) = None ->
  fault_at 0 (os.fs_plan m) = None ->
  fault_at 1 (os.fs_plan m) = None ->
  path s +:+ "/" +:+ unique +:+ filepath.Ext (Filename file) ∉ os.dirs m ->
  filepath.parent (path s +:+ "/" +:+ unique +:+ filepath.Ext (Filename file)) ∈ os.dirs m ->
  fst (local_Save s unique file m)
  = inl {| dto.Name := Filename file;
           dto.Destination := unique +:+ filepath.Ext (Filename file);
           dto.Height := int32 (image.Height cfg);
           dto.Width := int32 (image.Width cfg);
           dto.Size := int32 (multipart.Size file);
           dto.ContentType := t |}.
Proof.
  intros Hhd H4 Hf0 Hf1 Hnd Hpd.
  pose proof Hhd as (src & buf & n & src1 & d & src2 & src3 & Ho & Hr & Ht & Hd & Hs & Hdec)%header_decode_inv.
  destruct (decode_stage_inv _ _ _ _ _ _ _ _ _ _ Ho Hr Ht Hs Hdec)
    as (Hsn & Hoe & H0 & H1 & Hcfg & ->).
  unfold local_Save, local_GetFullPath. rewrite Ho, Hr, Ht, Hd, Hs, Hdec.
  rewrite (Create_intro _ _ Hf0 Hnd Hpd), Seek_eq. cbn [plan data pos].
  unfold os.Copy. rewrite read_to_end_eq. cbn [plan data pos].
  rewrite drop_drop, !fault_at_drop. cbn [Nat.add]. rewrite H4, Write_eq.
  cbn [os.fs_plan]. rewrite fault_at_drop. cbn [Nat.add]. by rewrite Hf1.
Qed.

(** X23. Every step of the S3 [Save] is checked: it succeeds only if the
    upload opened and none of the five calls on its handle, nor the
    service, met a fault. *)
Lemma s3_Save_checks_every_step (s : s3ImageStorage) (unique : string)
    (file : FileHeader) (m m' : s3.Store) (pic : dto.PictureRequest) :
  s3_Save s unique file m = (inl pic, m') ->
  open_err file = None
  /\ (forall i, (i < 5)%nat -> fault_at i (io_plan file) = None)
  /\ fault_at 0 (s3.s3_plan m) = None.
Proof.
  intros (t & d & cfg & Hhd & _ & _ & H2 & H3 & H4 & _ & Hf & _)%s3_Save_ok_inv.
  apply header_decode_spec in Hhd as (Hsn & H1 & _).
  apply sniffed_spec in Hsn as (Hoe & H0 & _).
  repeat split; try done.
  intros i Hi. by destruct i as [|[|[|[|[|]]]]]; [..|lia].
Qed.

(** X24. Every step of the local [Save] but one is checked: it succeeds
    only if the upload opened, the calls on its handle other than the
    fourth (the reset before the copy) met no fault, and neither did the
    two calls on the disk. *)
Lemma local_Save_checks_every_step_but_one (s : localImageStorage) (unique : string)
    (file : FileHeader) (m m' : os.FS) (pic : dto.PictureRequest) :
  local_Save s unique file m = (inl pic, m') ->
  open_err file = None
  /\ (forall i, (i < 5)%nat -> i <> 3%nat -> fault_at i (io_plan file) = None)
  /\ fault_at 0 (os.fs_plan m) = None
  /\ fault_at 1 (os.fs_plan m) = None.
Proof.
  intros (t & d & cfg & Hhd & _ & _ & H2 & H4 & _ & Hf0 & Hf1 & _)%local_Save_ok_inv.
  apply header_decode_spec in Hhd as (Hsn & H1 & _).
  apply sniffed_spec in Hsn as (Hoe & H0 & _).
  repeat split; try done.
  intros i Hi Hn. by destruct i as [|[|[|[|[|]]]]]; [..|lia].
Qed.

(** *** The persistence step in closed form *)

(** The local [Save] of an upload whose header decodes: [os.Create], then
    the reading of the handle for the copy, then the write; [k] is the
    offset from which the copy reads. *)
Lemma local_Save_after_decode (s : localImageStorage) (unique : string)
    (file : FileHeader) (m : os.FS) (t : string) (cfg : image.Config) :
  header_decode file = Some (t, inl cfg) ->
  exists k : nat,
    local_Save s unique file m
    = match os.Create m (path s +:+ "/" +:+ unique +:+ filepath.Ext (Filename file)) with
      | (inr err, m1) =>
          (inr {| dto.StatusCode := 500; dto.Error := err; dto.Data := ∅ |}, m1)
      | (inl out, m1) =>
          match fault_at 4 (io_plan file) with
          | Some err =>
              (inr {| dto.StatusCode := 500; dto.Error := err; dto.Data := ∅ |}, m1)
          | None =>
              match os.Write m1 out (drop k (content file)) with
              | (Some err, m2) =>
                  (inr {| dto.StatusCode := 500; dto.Error := err; dto.Data := ∅ |}, m2)
              | (None, m2) =>
                  (inl {| dto.Name := Filename file;
                          dto.Destination := unique +:+ filepath.Ext (Filename file);
                          dto.Height := int32 (image.Height cfg);
                          dto.Width := int32 (image.Width cfg);
                          dto.Size := int32 (multipart.Size file);
                          dto.ContentType := t |}, m2)
              end
          end
      end.
Proof.
  intros Hhd.
  pose proof Hhd as (src & buf & n & src1 & d & src2 & src3 & Ho & Hr & Ht & Hd & Hs & Hdec)%header_decode_inv.
  destruct (decode_stage_inv _ _ _ _ _ _ _ _ _ _ Ho Hr Ht Hs Hdec)
    as (Hsn & Hoe & H0 & H1 & Hcfg & ->).
  exists (match fault_at 3 (io_plan file) with
          | Some _ => match fault_at 2 (io_plan file) with
                      | Some _ => 0%nat
                      | None => Nat.min (image.consumed (d (content file))) (length (content file))
                      end
          | None => 0%nat
          end).
  unfold local_Save, local_GetFullPath. rewrite Ho, Hr, Ht, Hd, Hs, Hdec.
  destruct (os.Create m _) as [[out|e] m1]; [|done].
  rewrite Seek_eq. cbn [plan data pos]. unfold os.Copy.
  rewrite read_to_end_eq. cbn [plan data pos].
  rewrite drop_drop, !fault_at_drop. cbn [Nat.add].
  destruct (fault_at 4 (io_plan file)); [done|].
  destruct (fault_at 3 (io_plan file)); by destruct (os.Write m1 out _) as [[ew|] m2].
Qed.


(** [os.Create] below a directory that is missing fails and leaves the
    files and directories as they are. *)
Lemma Create_without_parent (m : os.FS) (fullPath : string) :
  filepath.parent fullPath ∉ os.dirs m ->
  exists err, os.Create m fullPath = (inr err, os.with_plan m (drop 1 (os.fs_plan m))).
Proof.
  intros Hp. unfold os.Create.
  rewrite (surjective_pairing (next_fault (os.fs_plan m))), next_fault_snd.
  destruct (fst (next_fault (os.fs_plan m))); [by eexists|].
  case_bool_decide; [by eexists|]. rewrite bool_decide_eq_false_2 by done. by eexists.
Qed.

(** *** Paths of stored files *)

Lemma before_last_slash_entry (root name : string) :
  filepath.before_last_slash name = None ->
  filepath.before_last_slash (root +:+ "/" +:+ name) = Some root.
Proof.
  intros Hn. induction root as [|c r IH].
  - change (filepath.before_last_slash (String "/" name) = Some EmptyString).
    cbn [filepath.before_last_slash]. by rewrite Hn.
  - change (filepath.before_last_slash (String c (r +:+ "/" +:+ name)) = Some (String c r)).
    cbn [filepath.before_last_slash]. by rewrite IH.
Qed.

Lemma parent_entry (root name : string) :
  root <> EmptyString ->
  filepath.before_last_slash name = None ->
  filepath.parent (root +:+ "/" +:+ name) = root.
Proof.
  intros Hr Hn. unfold filepath.parent. rewrite (before_last_slash_entry _ _ Hn).
  by destruct root.
Qed.

Lemma before_last_slash_append (a b : string) :
  filepath.before_last_slash a = None ->
  filepath.before_last_slash b = None ->
  filepath.before_last_slash (a +:+ b) = None.
Proof.
  intros Ha Hb. induction a as [|c a IH]; [done|].
  change (filepath.before_last_slash (String c (a +:+ b)) = None).
  cbn [filepath.before_last_slash] in *.
  destruct (filepath.before_last_slash a); [done|].
  rewrite IH; [|done]. by destruct (Ascii.eqb c "/").
Qed.

Lemma before_last_slash_chars (l : list ascii) :
  Forall (fun c => Ascii.eqb c "/" = false) l ->
  filepath.before_last_slash (string_of_list_ascii l) = None.
Proof.
  induction 1 as [|c l Hc _ IH]; [done|].
  cbn [string_of_list_ascii filepath.before_last_slash]. by rewrite IH, Hc.
Qed.

Lemma ext_scan_chars (rpath acc : list ascii) :
  Forall (fun c => Ascii.eqb c "/" = false) acc ->
  Forall (fun c => Ascii.eqb c "/" = false) (filepath.ext_scan rpath acc).
Proof.
  revert acc. induction rpath as [|c rest IH]; intros acc Hacc; [constructor|].
  cbn [filepath.ext_scan]. destruct (Ascii.eqb c "/") eqn:Hs; [constructor|].
  destruct (Ascii.eqb c "."); [by constructor|]. apply IH. by constructor.
Qed.

(** The extension taken from a file name has no separator. *)
Lemma Ext_no_separator (name : string) :
  filepath.before_last_slash (filepath.Ext name) = None.
Proof.
  unfold filepath.Ext. apply before_last_slash_chars, ext_scan_chars. constructor.
Qed.

(** *** The record returned by a successful [Save] *)

Lemma int32_in_range (x : Z) : - 2 ^ 31 <= x < 2 ^ 31 -> int32 x = x.
Proof. intros Hx. unfold int32. rewrite Z.mod_small; lia. Qed.

Lemma Saved_inv (unique : string) (file : FileHeader) (pic : dto.PictureRequest) :
  Saved unique file pic ->
  exists t decoder cfg,
    header_decode file = Some (t, inl cfg) /\
    CONTENT_DECODERS !! t = Some decoder /\
    image.outcome (decoder (content file)) = inl cfg /\
    pic = {| dto.Name := Filename file;
             dto.Destination := unique +:+ filepath.Ext (Filename file);
             dto.Height := int32 (image.Height cfg);
             dto.Width := int32 (image.Width cfg);
             dto.Size := int32 (multipart.Size file);
             dto.ContentType := t |}.
Proof.
  intros [s m m' Hs|s m m' Hs].
  - apply local_Save_ok_inv in Hs as (t & d & cfg & ? & ? & ? & _ & _ & ? & _).
    by exists t, d, cfg.
  - apply s3_Save_ok_inv in Hs as (t & d & cfg & ? & ? & ? & _ & _ & _ & ? & _).
    by exists t, d, cfg.
Qed.

(** C7, amended.  The record returned by a successful [Save] of either
    variant has the uploaded file name as [Name]; the generated name
    followed by the extension of the file name as [Destination]; the
    sniffed type, which is one of the six of the registry, as
    [ContentType]; and as [Height], [Width] and [Size] the conversions to
    int32 of the two dimensions returned by the decoder run on the whole
    content and of the [Size] field of the upload.  These equal the
    dimensions, and the byte length of a well-formed upload, whenever those
    fit in 32 signed bits.  [Save] does not check that the dimensions are
    positive. *)
Theorem picture_request_fields
    (unique : string) (file : FileHeader) (pic : dto.PictureRequest) :
  Saved unique file pic ->
  dto.Name pic = Filename file
  /\ dto.Destination pic = unique +:+ filepath.Ext (Filename file)
  /\ sniffed file = Some (dto.ContentType pic)
  /\ dto.ContentType pic ∈ supported
  /\ dto.Size pic = int32 (multipart.Size file)
  /\ (well_formed file -> Z.of_nat (length (content file)) < 2 ^ 31 ->
      dto.Size pic = Z.of_nat (length (content file)))
  /\ exists decoder cfg,
      CONTENT_DECODERS !! dto.ContentType pic = Some decoder
      /\ image.outcome (decoder (content file)) = inl cfg
      /\ dto.Height pic = int32 (image.Height cfg)
      /\ dto.Width pic = int32 (image.Width cfg)
      /\ (- 2 ^ 31 <= image.Height cfg < 2 ^ 31 -> dto.Height pic = image.Height cfg)
      /\ (- 2 ^ 31 <= image.Width cfg < 2 ^ 31 -> dto.Width pic = image.Width cfg).
Proof.
  intros (t & d & cfg & Hhd & Hd & Hcfg & ->)%Saved_inv.
  cbn [dto.Name dto.Destination dto.ContentType dto.Size dto.Height dto.Width].
  repeat split; try done.
  - by eapply header_decode_sniffed.
  - rewrite <- CONTENT_DECODERS_dom. apply elem_of_dom. by eexists.
  - intros Hwf Hlen. unfold well_formed in Hwf. rewrite Hwf. apply int32_in_range. lia.
  - exists d, cfg. repeat split; try done; apply int32_in_range.
Qed.

(** *** The persistence step *)

(** No call of the local [Save] makes a directory. *)
Lemma local_Save_dirs (s : localImageStorage) (unique : string) (file : FileHeader)
    (m : os.FS) :
  os.dirs (snd (local_Save s unique file m)) = os.dirs m.
Proof.
  unfold local_Save.
  destruct (multipart.Open file) as [src|]; [|done].
  destruct (multipart.Read src _) as [[[buf n] [e|]] src1]; [done|].
  destruct (CONTENT_DECODERS !! DetectContentType buf) as [decoder|]; [|done].
  destruct (multipart.Seek src1 0) as [[e|] src2]; [done|].
  destruct (multipart.decode decoder src2) as [[cfg|e] src3]; [|done].
  pose proof (Create_dirs m (local_GetFullPath s (unique +:+ filepath.Ext (Filename file)))) as Hc.
  destruct (os.Create m _) as [[out|e] m1]; cbn [snd] in Hc; [|done].
  destruct (multipart.Seek src3 0) as [e src4].
  pose proof (Copy_dirs m1 out src4) as Hcp.
  destruct (os.Copy m1 out src4) as [[[e'|] src5] m2]; cbn [snd] in *; congruence.
Qed.

(** [NewStorage] on a medium without the root: it makes the directory. *)
Lemma NewStorage_creates_root (root : string) (m : os.FS) :
  fault_at 0 (os.fs_plan m) = None ->
  fault_at 1 (os.fs_plan m) = None ->
  os.exists_at m root = false ->
  filepath.parent root ∈ os.dirs m ->
  NewStorage root m
  = (Some {| path := root |},
     {| os.dirs := {[root]} ∪ os.dirs m;
        os.files := os.files m;
        os.fs_plan := drop 2 (os.fs_plan m) |}).
Proof.
  intros H0 H1 He Hp. unfold NewStorage, os.Stat.
  rewrite (surjective_pairing (next_fault (os.fs_plan m))).
  rewrite next_fault_fst, next_fault_snd, H0, He.
  cbn [os.under_file]. rewrite (bool_decide_eq_true_2 _ Hp). cbn [is_ErrNotExist].
  rewrite String.eqb_refl. unfold os.Mkdir.
  change (os.exists_at (os.with_plan m (drop 1 (os.fs_plan m))) root)
    with (os.exists_at m root).
  cbn [os.with_plan os.fs_plan os.dirs os.files].
  rewrite (surjective_pairing (next_fault (drop 1 (os.fs_plan m)))).
  rewrite next_fault_fst, next_fault_snd, fault_at_drop, drop_drop. cbn [Nat.add].
  by rewrite H1, He, bool_decide_eq_true_2.
Qed.

(** C8, amended.  The local [Save] makes no directory, whatever the upload:
    on success the directory of the written path was there before the call,
    and it is the root when the root and the generated name are well formed;
    the root is made by [NewStorage] when the backend is constructed.  A
    [Save] that reaches the persistence step while the root is absent
    returns status 500 with the error of [os.Create] and no diagnostic
    data, and leaves the files and the directories of the medium as they
    were.  On success, when the reset before the copy met no fault, the
    file at root "/" destination holds the whole content.  On success the
    S3 [Save] has put at the key prefix followed by destination, in the
    bucket, an object holding the whole content, with the sniffed type as
    content type and the private ACL. *)
Theorem persistence_step
    (sl : localImageStorage) (sr : s3ImageStorage) (unique : string)
    (filel filer : FileHeader) (ml ml' : os.FS) (mr mr' : s3.Store)
    (picl picr : dto.PictureRequest) :
  local_Save sl unique filel ml = (inl picl, ml') ->
  fault_at 3 (io_plan filel) = None ->
  s3_Save sr unique filer mr = (inl picr, mr') ->
  (os.files ml' = <[path sl +:+ "/" +:+ dto.Destination picl := content filel]> (os.files ml)
   /\ os.dirs ml' = os.dirs ml
   /\ filepath.parent (path sl +:+ "/" +:+ dto.Destination picl) ∈ os.dirs ml
   /\ (path sl <> EmptyString -> filepath.before_last_slash unique = None -> path sl ∈ os.dirs ml))
  /\ (forall file m, os.dirs (snd (local_Save sl unique file m)) = os.dirs m)
  /\ (forall file m t cfg,
        header_decode file = Some (t, inl cfg) ->
        path sl <> EmptyString -> filepath.before_last_slash unique = None ->
        path sl ∉ os.dirs m ->
        exists err,
          local_Save sl unique file m
          = (inr {| dto.StatusCode := 500; dto.Error := err; dto.Data := ∅ |},
             os.with_plan m (drop 1 (os.fs_plan m)))
          /\ os.files (os.with_plan m (drop 1 (os.fs_plan m))) = os.files m
          /\ os.dirs (os.with_plan m (drop 1 (os.fs_plan m))) = os.dirs m
          /\ (fault_at 0 (os.fs_plan m) = None ->
              path sl +:+ "/" +:+ unique +:+ filepath.Ext (Filename file) ∉ os.dirs m ->
              err = PathError "open"
                      (path sl +:+ "/" +:+ unique +:+ filepath.Ext (Filename file))
                      (Errno "ENOENT")))
  /\ (forall m, fault_at 0 (os.fs_plan m) = None -> fault_at 1 (os.fs_plan m) = None ->
        os.exists_at m (path sl) = false -> filepath.parent (path sl) ∈ os.dirs m ->
        fst (NewStorage (path sl) m) = Some sl
        /\ os.dirs (snd (NewStorage (path sl) m)) = {[path sl]} ∪ os.dirs m)
  /\ s3.objects mr'
     = <[(bucket sr, prefix sr +:+ dto.Destination picr) :=
           {| s3.Body := content filer;
              s3.ContentType := dto.ContentType picr;
              s3.ACL := s3.ObjectCannedACLPrivate |}]> (s3.objects mr).
Proof.
  intros Hl H3 Hr.
  apply local_Save_ok_inv in Hl
    as (t & d & cfg & _ & _ & _ & _ & _ & -> & _ & _ & Hnd & Hpd & ->).
  apply s3_Save_ok_inv in Hr
    as (t' & d' & cfg' & _ & _ & _ & _ & _ & _ & -> & _ & ->).
  rewrite H3. cbn [dto.Destination dto.ContentType os.files os.dirs s3.objects].
  rewrite drop_0. repeat split; try done.
  - intros Hroot Hu. rewrite parent_entry in Hpd; [done..|].
    apply before_last_slash_append; [done|apply Ext_no_separator].
  - apply local_Save_dirs.
  - intros file m t0 cfg0 Hhd Hroot Hu Habs.
    destruct (local_Save_after_decode sl unique file m t0 cfg0 Hhd) as [k ->].
    assert (filepath.parent (path sl +:+ "/" +:+ unique +:+ filepath.Ext (Filename file))
              ∉ os.dirs m) as Hpar.
    { rewrite parent_entry; [done..|].
      apply before_last_slash_append; [done|apply Ext_no_separator]. }
    destruct (Create_without_parent m _ Hpar) as [err Hc]. exists err.
    rewrite Hc. repeat split. intros Hf0 Hnodir. revert Hc. unfold os.Create.
    rewrite (surjective_pairing (next_fault (os.fs_plan m))), next_fault_fst, Hf0.
    rewrite !bool_decide_eq_false_2 by done. by intros [= <-].
  - rewrite NewStorage_creates_root; [|done..]. by destruct sl.
  - by rewrite NewStorage_creates_root.
Qed.

(** *** Reading back *)

(** X19. After a successful S3 [Save], [Get] with the returned destination
    gives the content back, if the service meets no fault. *)
Lemma s3_roundtrip (s : s3ImageStorage) (unique : string) (file : FileHeader)
    (m m' : s3.Store) (pic : dto.PictureRequest) :
  s3_Save s unique file m = (inl pic, m') ->
  fault_at 0 (s3.s3_plan m') = None ->
  fault_at 1 (s3.s3_plan m') = None ->
  fst (s3_Get s (dto.Destination pic) m') = (content file, None).
Proof.
  intros (t & d & cfg & _ & _ & _ & _ & _ & _ & -> & _ & ->)%s3_Save_ok_inv.
  cbn [dto.Destination s3.s3_plan]. intros H0 H1.
  unfold s3_Get, s3.GetObject. cbn [s3.s3_plan s3.objects].
  rewrite (surjective_pairing (next_fault (drop 1 (s3.s3_plan m)))).
  rewrite next_fault_fst, next_fault_snd, H0, lookup_insert_eq.
  unfold s3.ReadBody. cbn [s3.with_plan s3.s3_plan s3.Body].
  rewrite (surjective_pairing (next_fault (drop 1 (drop 1 (s3.s3_plan m))))).
  rewrite next_fault_fst, fault_at_drop. cbn [Nat.add]. by rewrite H1.
Qed.

(** After a successful local [Save], [Get] with the returned destination
    gives back the content from the offset at which the copy started; this
    is the whole content when the reset before the copy met no fault. *)
Lemma local_readback (s : localImageStorage) (unique : string) (file : FileHeader)
    (m m' : os.FS) (pic : dto.PictureRequest) :
  local_Save s unique file m = (inl pic, m') ->
  fault_at 0 (os.fs_plan m') = None ->
  fault_at 1 (os.fs_plan m') = None ->
  exists decoder,
    CONTENT_DECODERS !! dto.ContentType pic = Some decoder /\
    fst (local_Get s (dto.Destination pic) m')
    = (drop (match fault_at 3 (io_plan file) with
             | Some _ => Nat.min (image.consumed (decoder (content file)))
                                 (length (content file))
             | None => 0%nat
             end) (content file), None).
Proof.
  intros (t & d & cfg & _ & Hd & _ & _ & _ & -> & _ & _ & _ & _ & ->)%local_Save_ok_inv.
  cbn [dto.Destination dto.ContentType]. intros H0 H1. exists d. split; [done|].
  apply local_key_is_used_verbatim_aux; [apply lookup_insert_eq|done..].
Qed.

(** X20. After a successful local [Save] whose reset before the copy met no
    fault, [Get] with the returned destination gives the content back, if
    the disk meets no fault. *)
Lemma local_roundtrip (s : localImageStorage) (unique : string) (file : FileHeader)
    (m m' : os.FS) (pic : dto.PictureRequest) :
  local_Save s unique file m = (inl pic, m') ->
  fault_at 3 (io_plan file) = None ->
  fault_at 0 (os.fs_plan m') = None ->
  fault_at 1 (os.fs_plan m') = None ->
  fst (local_Get s (dto.Destination pic) m') = (content file, None).
Proof.
  intros Hs H3 H0 H1.
  destruct (local_readback _ _ _ _ _ _ Hs H0 H1) as (d & _ & ->). by rewrite H3, drop_0.
Qed.

End Properties.

(** ** The code on concrete uploads *)

Section Runs.

#[local] Existing Instance sample.libs.

Lemma sample_header_decode (name : string) (tail : list byte) :
  header_decode (sample.upload name (sample.gif_bytes tail) [])
  = Some ("image/gif", inl {| image.Width := 3; image.Height := 2 |}).
Proof.
  apply header_decode_spec. split; [|split; [done|]].
  - apply sniffed_spec. by repeat split.
  - exists sample.gif_header. split; by vm_compute.
Qed.

Lemma sample_length (tail : list byte) :
  length (sample.gif_bytes tail) = (13 + length tail)%nat.
Proof. done. Qed.

Lemma huge_gif_length : Z.of_nat (length (content sample.huge_gif)) = 2147483648.
Proof.
  unfold sample.huge_gif, sample.upload. cbn [content].
  rewrite sample_length, repeat_length. lia.
Qed.

Lemma cat_gif_saved_s3 :
  s3_Save sample.remote "u1" sample.cat_gif sample.cloud
  = (inl sample.cat_gif_record, snd (s3_Save sample.remote "u1" sample.cat_gif sample.cloud)).
Proof. by vm_compute. Defined.

Lemma cat_gif_saved_local :
  local_Save sample.local "u1" sample.cat_gif sample.disk
  = (inl sample.cat_gif_record, snd (local_Save sample.local "u1" sample.cat_gif sample.disk)).
Proof. by vm_compute. Defined.

Lemma octet_stream_unsupported : "application/octet-stream" ∉ supported.
Proof. apply (bool_decide_unpack _). by vm_compute. Qed.

(** A text file named [cat.png] is rejected with status 400 by both
    variants, and the media are left as they were. *)
Lemma unsupported_type_witness :
  sniffed sample.notes_txt = Some "application/octet-stream"
  /\ ("application/octet-stream" ∉ dom CONTENT_DECODERS)
  /\ local_Save sample.local "u1" sample.notes_txt sample.disk
     = (inr {| dto.StatusCode := 400;
               dto.Error := errorString "unsupported format";
               dto.Data := {["format" := "application/octet-stream"]} |}, sample.disk)
  /\ s3_Save sample.remote "u1" sample.notes_txt sample.cloud
     = (inr {| dto.StatusCode := 400;
               dto.Error := errorString "unsupported image format";
               dto.Data := {["format" := "application/octet-stream"]} |}, sample.cloud).
Proof.
  assert (sniffed sample.notes_txt = Some "application/octet-stream") as Hs
    by (vm_compute; reflexivity).
  assert ("application/octet-stream" ∉ dom CONTENT_DECODERS) as Hd
    by (rewrite CONTENT_DECODERS_dom; exact octet_stream_unsupported).
  split; [exact Hs|]. split; [exact Hd|].
  exact (unsupported_type_is_client_error sample.notes_txt "application/octet-stream" "u1"
           sample.local sample.disk sample.remote sample.cloud Hs Hd).
Defined.

(** A GIF cut after eight bytes is rejected with status 500 by both
    variants, and the media are left as they were. *)
Lemma corrupt_header_witness :
  header_decode sample.broken_gif
  = Some ("image/gif", inr (errorString "gif: reading header: unexpected EOF"))
  /\ fst (local_Save sample.local "u1" sample.broken_gif sample.disk)
     = inr {| dto.StatusCode := 500;
              dto.Error := errorString "gif: reading header: unexpected EOF";
              dto.Data := {["format" := "image/gif"]} |}
  /\ snd (s3_Save sample.remote "u1" sample.broken_gif sample.cloud) = sample.cloud.
Proof.
  assert (header_decode sample.broken_gif
          = Some ("image/gif", inr (errorString "gif: reading header: unexpected EOF")))
    as Hd by (vm_compute; reflexivity).
  split; [exact Hd|].
  destruct (corrupt_header_is_server_error sample.broken_gif "image/gif" "u1" _
              sample.local sample.disk sample.remote sample.cloud Hd) as (_ & Hl & Hr).
  rewrite Hl, Hr. split; reflexivity.
Defined.

Lemma registry_witness :
  sniffed sample.notes_txt = Some "application/octet-stream"
  /\ ("application/octet-stream" ∉ supported)
  /\ size CONTENT_DECODERS = 6%nat
  /\ exists e, fst (local_Save sample.local "u1" sample.notes_txt sample.disk) = inr e
        /\ dto.StatusCode e = 400 /\ dto.Data e !! "format" = Some "application/octet-stream".
Proof.
  assert (sniffed sample.notes_txt = Some "application/octet-stream") as Hs
    by (vm_compute; reflexivity).
  split; [exact Hs|]. split; [exact octet_stream_unsupported|].
  destruct (registry_has_six_formats sample.notes_txt "application/octet-stream" "u1"
              sample.local sample.disk sample.remote sample.cloud Hs octet_stream_unsupported)
    as ((_ & Hsize & _) & Hl & _).
  split; [exact Hsize | exact Hl].
Defined.

Lemma get_error_kinds_witness :
  s3.GetObject sample.cloud "pictures" "img/nope.gif"
  = (inr (wrapError "operation error S3: GetObject, " (APIError "NoSuchKey")), sample.cloud)
  /\ s3_Get sample.remote "nope.gif" sample.cloud
     = (([], Some (S3NotFoundError "nope.gif")), sample.cloud)
  /\ os.Open sample.disk "/srv/images/nope.gif"
     = (inr (PathError "open" "/srv/images/nope.gif" (Errno "ENOENT")), sample.disk)
  /\ local_Get sample.local "nope.gif" sample.disk
     = (([], Some (PathError "open" "/srv/images/nope.gif" (Errno "ENOENT"))), sample.disk).
Proof.
  assert (s3.GetObject sample.cloud (bucket sample.remote) (prefix sample.remote +:+ "nope.gif")
          = (inr (wrapError "operation error S3: GetObject, " (APIError "NoSuchKey")),
             sample.cloud)) as Hg by (vm_compute; reflexivity).
  assert (os.Open sample.disk (path sample.local +:+ "/" +:+ "nope.gif")
          = (inr (PathError "open" "/srv/images/nope.gif" (Errno "ENOENT")), sample.disk))
    as Ho by (vm_compute; reflexivity).
  destruct (get_error_kinds sample.remote sample.local "nope.gif" sample.cloud sample.disk)
    as (Hnf & _ & _ & _ & Hl & _).
  split; [exact Hg|]. split; [exact (Hnf _ _ Hg eq_refl)|].
  split; [exact Ho|]. exact (Hl _ _ Ho).
Defined.

Lemma local_key_witness :
  os.files sample.disk !! "/srv/images/thumbs/a.gif" = Some (sample.gif_bytes [])
  /\ fst (local_Get sample.local "thumbs/a.gif" sample.disk) = (sample.gif_bytes [], None)
  /\ local_GetFullPath sample.local "../secret.txt" = "/srv/images/../secret.txt".
Proof.
  assert (os.files sample.disk !! (path sample.local +:+ "/" +:+ "thumbs/a.gif")
          = Some (sample.gif_bytes [])) as Hf by (vm_compute; reflexivity).
  destruct (local_key_is_used_verbatim sample.local "thumbs/a.gif" sample.disk)
    as (_ & _ & _ & _ & _ & Hr).
  split; [exact Hf|]. split; [exact (Hr _ Hf eq_refl eq_refl)|].
  exact (proj1 (proj2 (proj2 (proj2
           (local_key_is_used_verbatim sample.local "../secret.txt" sample.disk))))
           "secret.txt" eq_refl).
Defined.

Lemma picture_request_witness :
  Saved "u1" sample.cat_gif sample.cat_gif_record
  /\ dto.Name sample.cat_gif_record = Filename sample.cat_gif
  /\ dto.Destination sample.cat_gif_record = "u1" +:+ filepath.Ext (Filename sample.cat_gif).
Proof.
  assert (Saved "u1" sample.cat_gif sample.cat_gif_record) as Hs
    by exact (Saved_s3 _ _ _ _ _ _ cat_gif_saved_s3).
  destruct (picture_request_fields "u1" sample.cat_gif sample.cat_gif_record Hs)
    as (Hn & Hd & _).
  split; [exact Hs|]. split; [exact Hn | exact Hd].
Defined.

Lemma persistence_witness :
  fault_at 3 (io_plan sample.cat_gif) = None
  /\ os.files (snd (local_Save sample.local "u1" sample.cat_gif sample.disk))
       !! "/srv/images/u1.gif" = Some (content sample.cat_gif)
  /\ s3.objects (snd (s3_Save sample.remote "u1" sample.cat_gif sample.cloud))
       !! ("pictures", "img/u1.gif")
     = Some {| s3.Body := content sample.cat_gif;
               s3.ContentType := "image/gif";
               s3.ACL := s3.ObjectCannedACLPrivate |}.
Proof.
  destruct (persistence_step sample.local sample.remote "u1" sample.cat_gif sample.cat_gif
              _ _ _ _ _ _ cat_gif_saved_local eq_refl cat_gif_saved_s3)
    as ((Hf & _) & _ & _ & _ & Ho).
  split; [reflexivity|]. rewrite Hf, Ho. split; apply lookup_insert_eq.
Defined.

(** C7, as stated, fails.  A well-formed GIF of 2^31 bytes is saved with
    [Size] -2^31, and a GIF whose screen is 0x0 is saved with [Height] and
    [Width] 0. *)
Lemma picture_request_size_and_sign :
  (well_formed sample.huge_gif
   /\ exists pic, Saved "u1" sample.huge_gif pic
        /\ dto.Size pic = -2147483648
        /\ dto.Size pic <> Z.of_nat (length (content sample.huge_gif)))
  /\ (well_formed sample.empty_screen_gif
      /\ exists pic, Saved "u1" sample.empty_screen_gif pic
           /\ ~ 0 < dto.Height pic /\ ~ 0 < dto.Width pic).
Proof.
  split.
  - split; [done|]. eexists. split.
    + eapply Saved_s3 with (s := sample.remote) (m := sample.cloud).
      by apply s3_Save_ok_intro; [apply sample_header_decode|..].
    + cbn [dto.Size]. change (multipart.Size sample.huge_gif)
        with (Z.of_nat (length (content sample.huge_gif))).
      rewrite huge_gif_length. by vm_compute.
  - split; [done|].
    exists {| dto.Name := "dot.gif"; dto.Destination := "u1.gif"; dto.Height := 0;
              dto.Width := 0; dto.Size := 29; dto.ContentType := "image/gif" |}.
    split; [|by vm_compute].
    eapply Saved_s3 with (s := sample.remote) (m := sample.cloud). by vm_compute.
Qed.

(** C8, as stated, fails.  On a medium without the root directory the local
    [Save] of a valid picture returns the error of [os.Create]; the medium
    is as before: no directory was made, nothing was written. *)
Lemma local_Save_makes_no_root :
  os.exists_at sample.bare_disk (path sample.local) = false
  /\ is_Some (header_decode sample.cat_gif)
  /\ local_Save sample.local "u1" sample.cat_gif sample.bare_disk
     = (inr {| dto.StatusCode := 500;
               dto.Error := PathError "open" "/srv/images/u1.gif" (Errno "ENOENT");
               dto.Data := ∅ |}, sample.bare_disk).
Proof. split; [by vm_compute|]. split; [by eexists; vm_compute | by vm_compute]. Qed.

End Runs.

(** ** Further behaviour of the storage package *)

Section Behaviour.
Context `{Libs}.

Lemma header_decode_intro (file : FileHeader) (src src1 src2 src3 : File)
    (buf : list byte) (n : nat) (decoder : Decoder) (r : image.Config + error) :
  multipart.Open file = inl src ->
  multipart.Read src (repeat "000"%byte 512) = ((buf, n, None), src1) ->
  CONTENT_DECODERS !! DetectContentType buf = Some decoder ->
  multipart.Seek src1 0 = (None, src2) ->
  multipart.decode decoder src2 = (r, src3) ->
  header_decode file = Some (DetectContentType buf, r).
Proof.
  intros Ho Hr Hd Hs Hdec. unfold header_decode. by rewrite Ho, Hr, Hd, Hs, Hdec.
Qed.

Lemma sniffed_intro (file : FileHeader) (src src1 : File) (buf : list byte) (n : nat) :
  multipart.Open file = inl src ->
  multipart.Read src (repeat "000"%byte 512) = ((buf, n, None), src1) ->
  sniffed file = Some (DetectContentType buf).
Proof. intros Ho Hr. unfold sniffed. by rewrite Ho, Hr. Qed.

Lemma registered_supported (t : string) (decoder : Decoder) :
  CONTENT_DECODERS !! t = Some decoder -> t ∈ supported.
Proof. intros Hd. rewrite <- CONTENT_DECODERS_dom. apply elem_of_dom. by eexists. Qed.

(** *** Validation comes first *)

(** X1. Persistence is attempted only for an upload whose header decodes:
    for any other upload (one that does not open, is empty, is of an
    unregistered type, fails a read, a reset or the decoder) both [Save]
    methods return an error and the medium exactly as it was given; they
    made no call on it. *)
Theorem undecodable_upload_leaves_medium_untouched
    (file : FileHeader) (unique : string)
    (sl : localImageStorage) (ml : os.FS) (sr : s3ImageStorage) (mr : s3.Store) :
  (forall t cfg, header_decode file <> Some (t, inl cfg)) ->
  (exists e, local_Save sl unique file ml = (inr e, ml))
  /\ (exists e, s3_Save sr unique file mr = (inr e, mr)).
Proof.
  intros Hno. unfold local_Save, s3_Save.
  destruct (multipart.Open file) as [src|] eqn:Ho; [|by eauto].
  destruct (multipart.Read src _) as [[[buf n] [e|]] src1] eqn:Hr; [by eauto|].
  destruct (CONTENT_DECODERS !! DetectContentType buf) as [decoder|] eqn:Hd; [|by eauto].
  destruct (multipart.Seek src1 0) as [[e|] src2] eqn:Hs; [by eauto|].
  destruct (multipart.decode decoder src2) as [[cfg|e] src3] eqn:Hdec; [|by eauto].
  destruct (Hno _ _ (header_decode_intro _ _ _ _ _ _ _ _ _ Ho Hr Hd Hs Hdec)).
Qed.

(** X2. An upload of no bytes is not a client error: the read of the prefix
    returns [io.EOF], and both [Save] methods report status 500 with that
    cause (wrapped by the S3 one), no diagnostic data, and the medium
    untouched. *)
Theorem empty_upload_is_server_error
    (file : FileHeader) (unique : string)
    (sl : localImageStorage) (ml : os.FS) (sr : s3ImageStorage) (mr : s3.Store) :
  open_err file = None ->
  fault_at 0 (io_plan file) = None ->
  content file = [] ->
  local_Save sl unique file ml
  = (inr {| dto.StatusCode := 500; dto.Error := io_EOF; dto.Data := ∅ |}, ml)
  /\ s3_Save sr unique file mr
  = (inr {| dto.StatusCode := 500;
            dto.Error := wrapError "cannot read file header: " io_EOF;
            dto.Data := ∅ |}, mr).
Proof.
  intros Ho H0 Hc. unfold local_Save, s3_Save, multipart.Open, multipart.Read.
  rewrite Ho. cbn [plan data pos].
  rewrite (surjective_pairing (next_fault (io_plan file))), next_fault_fst, H0, Hc.
  done.
Qed.

(** X3. The status of an error of [Save], for either variant: it is 400 or
    500; it is 400 exactly when the prefix was read and the sniffed type is
    not one of the six registered; and the diagnostic data is either empty
    or the sniffed type under ["format"]. *)
Theorem Save_error_status
    (file : FileHeader) (unique : string) (e : dto.InvalidPictureFileError)
    (sl : localImageStorage) (ml : os.FS) (sr : s3ImageStorage) (mr : s3.Store) :
  fst (local_Save sl unique file ml) = inr e \/ fst (s3_Save sr unique file mr) = inr e ->
  (dto.StatusCode e = 400 \/ dto.StatusCode e = 500)
  /\ (dto.StatusCode e = 400 <-> exists t, sniffed file = Some t /\ t ∉ supported)
  /\ (dto.Data e = ∅ \/ exists t, sniffed file = Some t /\ dto.Data e = {["format" := t]}).
Proof.
  intros He.
  assert ((exists t, sniffed file = Some t /\ t ∉ supported) -> dto.StatusCode e = 400) as Hback.
  { intros (t & Hs & Ht). rewrite <- CONTENT_DECODERS_dom in Ht.
    destruct (unsupported_type_is_client_error_aux file t unique sl ml sr mr Hs Ht) as [Hl Hr].
    rewrite Hl, Hr in He. by destruct He as [[= <-]|[= <-]]. }
  revert He. unfold local_Save, s3_Save.
  destruct (multipart.Open file) as [src|] eqn:Ho.
  2:{ intros [[= <-]|[= <-]]; (split; [by right|]); (split; [|by left]);
        (split; [done | intros Hx; exfalso]);
        apply Hback in Hx; done. }
  destruct (multipart.Read src _) as [[[buf n] [er|]] src1] eqn:Hr.
  { intros [[= <-]|[= <-]]; (split; [by right|]); (split; [|by left]);
      (split; [done | intros Hx; exfalso]);
      apply Hback in Hx; done. }
  pose proof (sniffed_intro _ _ _ _ _ Ho Hr) as Hsn.
  destruct (CONTENT_DECODERS !! DetectContentType buf) as [decoder|] eqn:Hd.
  2:{ assert (DetectContentType buf ∉ supported) as Hns.
      { rewrite <- CONTENT_DECODERS_dom. by apply not_elem_of_dom. }
      intros [[= <-]|[= <-]]; (split; [by left|]); (split; [|right; eauto]);
        (split; [eauto | done]). }
  assert (dto.StatusCode e = 500 -> dto.StatusCode e = 400 <->
          exists t, sniffed file = Some t /\ t ∉ supported) as Hno.
  { intros H5. split; [rewrite H5; done|].
    intros (t & Hs & Ht). rewrite Hsn in Hs. injection Hs as <-.
    destruct Ht. by eapply registered_supported. }
  destruct (multipart.Seek src1 0) as [[es|] src2] eqn:Hs.
  { intros [[= <-]|[= <-]]; (split; [by right|]); (split; [by apply Hno|by left]). }
  destruct (multipart.decode decoder src2) as [[cfg|ed] src3] eqn:Hdec.
  2:{ intros [[= <-]|[= <-]]; (split; [by right|]); (split; [by apply Hno|right; eauto]). }
  intros [Hl|Hr'].
  - revert Hl. destruct (os.Create ml _) as [[out|ec] m1].
    2:{ intros [= <-]. split; [by right|]. split; [by apply Hno|by left]. }
    destruct (multipart.Seek src3 0) as [e4 src4].
    destruct (os.Copy m1 out src4) as [[[ecp|] src5] m2]; [|done].
    intros [= <-]. split; [by right|]. split; [by apply Hno|by left].
  - revert Hr'. destruct (multipart.Seek src3 0) as [[e4|] src4].
    { intros [= <-]. split; [by right|]. split; [by apply Hno|by left]. }
    destruct (s3.Upload mr _) as [[[eu|] src5] m2]; [|done].
    intros [= <-]. split; [by right|]. split; [by apply Hno|by left].
Qed.

(** X4. Sniffing looks at the first 512 bytes only: two uploads that open
    alike, meet the same fate at their first read and agree on their first
    512 bytes get the same sniffed type, whatever follows and whatever
    their names are. *)
Theorem sniffing_reads_512_bytes (file1 file2 : FileHeader) :
  open_err file1 = open_err file2 ->
  fault_at 0 (io_plan file1) = fault_at 0 (io_plan file2) ->
  take 512 (content file1) = take 512 (content file2) ->
  sniffed file1 = sniffed file2.
Proof.
  intros Ho Hf Ht.
  assert (forall b : list byte,
            prefix_buffer b
            = take 512 b ++ drop (length (take 512 b)) (repeat "000"%byte 512)) as Hpb.
  { intros b. unfold prefix_buffer. rewrite length_take.
    destruct (Nat.le_ge_cases 512 (length b)) as [Hle|Hge].
    - by rewrite Nat.min_l.
    - rewrite Nat.min_r by done. by rewrite !take_ge by lia. }
  assert (content file1 = [] <-> content file2 = []) as Hnil.
  { split; intros Hn; rewrite Hn in Ht.
    - destruct (content file2); [done|]. discriminate Ht.
    - destruct (content file1); [done|]. discriminate Ht. }
  assert (forall f1 f2 t,
            open_err f1 = open_err f2 -> fault_at 0 (io_plan f1) = fault_at 0 (io_plan f2) ->
            take 512 (content f1) = take 512 (content f2) ->
            (content f1 = [] <-> content f2 = []) ->
            sniffed f1 = Some t -> sniffed f2 = Some t) as Hdir.
  { intros f1 f2 t Ho' Hf' Ht' Hn' (Ho1 & Hf1 & Hc1 & ->)%sniffed_spec.
    apply sniffed_spec. rewrite <- Ho', <- Hf'. repeat split; try done.
    - by rewrite <- Hn'.
    - by rewrite !Hpb, Ht'. }
  destruct (sniffed file1) as [t|] eqn:H1.
  - symmetry. by apply (Hdir file1 file2).
  - destruct (sniffed file2) as [t|] eqn:H2; [|done].
    pose proof (Hdir file2 file1 t (eq_sym Ho) (eq_sym Hf) (eq_sym Ht) (iff_sym Hnil) H2).
    congruence.
Qed.

(** *** What [Save] leaves on the medium *)

(** X5. The local [Save] touches one path: whatever the upload and whatever
    the outcome, the directories are as before and every file but the one
    at root "/" generated name and extension is as before. *)
Theorem local_Save_touches_one_path
    (s : localImageStorage) (unique : string) (file : FileHeader) (m : os.FS)
    (p : string) :
  p <> path s +:+ "/" +:+ unique +:+ filepath.Ext (Filename file) ->
  os.files (snd (local_Save s unique file m)) !! p = os.files m !! p
  /\ os.dirs (snd (local_Save s unique file m)) = os.dirs m.
Proof.
  intros Hp. split; [|apply local_Save_dirs].
  unfold local_Save, local_GetFullPath.
  destruct (multipart.Open file) as [src|]; [|done].
  destruct (multipart.Read src _) as [[[buf n] [e|]] src1]; [done|].
  destruct (CONTENT_DECODERS !! DetectContentType buf) as [decoder|]; [|done].
  destruct (multipart.Seek src1 0) as [[e|] src2]; [done|].
  destruct (multipart.decode decoder src2) as [[cfg|e] src3]; [|done].
  assert (forall m1 r m2, (r, m2) = os.Create m1 (path s +:+ "/" +:+ unique +:+ filepath.Ext (Filename file)) ->
            (match r with inl out => out = path s +:+ "/" +:+ unique +:+ filepath.Ext (Filename file) | inr _ => True end)
            /\ os.files m2 !! p = os.files m1 !! p) as Hcreate.
  { intros m1 r m2. unfold os.Create.
    rewrite (surjective_pairing (next_fault (os.fs_plan m1))).
    destruct (fst (next_fault (os.fs_plan m1))); [by intros [= -> ->]|].
    case_bool_decide; [by intros [= -> ->]|].
    case_bool_decide; intros [= -> ->]; [|done].
    split; [done|]. cbn [os.files]. by rewrite lookup_insert_ne. }
  destruct (os.Create m _) as [[out|e] m1] eqn:Hc;
    destruct (Hcreate _ _ _ (eq_sym Hc)) as [Hout Hm1]; [|exact Hm1].
  subst out. destruct (multipart.Seek src3 0) as [e4 src4].
  unfold os.Copy. rewrite read_to_end_eq.
  destruct (fault_at 0 (plan src4)); [exact Hm1|]. rewrite Write_eq.
  destruct (fault_at 0 (os.fs_plan m1)); cbn [snd os.files os.with_plan]; [exact Hm1|].
  by rewrite lookup_insert_ne.
Qed.

(** X6. The S3 [Save] stores all or nothing: when it returns an error the
    objects of the store are as before, and in any case every key but
    prefix, generated name and extension, in the bucket, is as before. *)
Theorem s3_Save_stores_all_or_nothing
    (s : s3ImageStorage) (unique : string) (file : FileHeader) (m : s3.Store) :
  (forall e, fst (s3_Save s unique file m) = inr e ->
     s3.objects (snd (s3_Save s unique file m)) = s3.objects m)
  /\ (forall k, k <> (bucket s, prefix s +:+ unique +:+ filepath.Ext (Filename file)) ->
     s3.objects (snd (s3_Save s unique file m)) !! k = s3.objects m !! k).
Proof.
  unfold s3_Save.
  destruct (multipart.Open file) as [src|]; [|done].
  destruct (multipart.Read src _) as [[[buf n] [e|]] src1]; [done|].
  destruct (CONTENT_DECODERS !! DetectContentType buf) as [decoder|]; [|done].
  destruct (multipart.Seek src1 0) as [[e|] src2]; [done|].
  destruct (multipart.decode decoder src2) as [[cfg|e] src3]; [|done].
  destruct (multipart.Seek src3 0) as [[e|] src4]; [done|].
  unfold s3.Upload. cbn [s3.UploadBody s3.Bucket s3.Key s3.UploadContentType s3.UploadACL].
  rewrite read_to_end_eq. destruct (fault_at 0 (plan src4)); [done|].
  rewrite (surjective_pairing (next_fault (s3.s3_plan m))).
  destruct (fst (next_fault (s3.s3_plan m))); [done|]. cbn [fst snd s3.objects].
  split; [done|]. intros k Hk. by rewrite lookup_insert_ne.
Qed.

(** X7. The local [Save] does not remove what it created: when the copy
    fails, on the side of the upload or of the disk, it returns status 500
    with the cause, and the file it had created at the destination, which
    was not there before, is on the medium. *)
Theorem failed_copy_leaves_created_file
    (s : localImageStorage) (unique : string) (file : FileHeader) (m : os.FS)
    (t : string) (cfg : image.Config) (e : error) :
  header_decode file = Some (t, inl cfg) ->
  fault_at 0 (os.fs_plan m) = None ->
  path s +:+ "/" +:+ unique +:+ filepath.Ext (Filename file) ∉ os.dirs m ->
  filepath.parent (path s +:+ "/" +:+ unique +:+ filepath.Ext (Filename file)) ∈ os.dirs m ->
  os.files m !! (path s +:+ "/" +:+ unique +:+ filepath.Ext (Filename file)) = None ->
  fault_at 4 (io_plan file) = Some e
  \/ (fault_at 4 (io_plan file) = None /\ fault_at 1 (os.fs_plan m) = Some e) ->
  fst (local_Save s unique file m)
  = inr {| dto.StatusCode := 500; dto.Error := e; dto.Data := ∅ |}
  /\ is_Some (os.files (snd (local_Save s unique file m))
               !! (path s +:+ "/" +:+ unique +:+ filepath.Ext (Filename file))).
Proof.
  intros Hhd Hf0 Hnd Hpd Hnone Hfail.
  pose proof Hhd as (src & buf & n & src1 & d & src2 & src3 & Ho & Hr & Ht & Hd & Hs & Hdec)%header_decode_inv.
  destruct (decode_stage_inv _ _ _ _ _ _ _ _ _ _ Ho Hr Ht Hs Hdec)
    as (Hsn & Hoe & H0 & H1 & Hcfg & ->).
  unfold local_Save, local_GetFullPath. rewrite Ho, Hr, Ht, Hd, Hs, Hdec.
  rewrite (Create_intro _ _ Hf0 Hnd Hpd), Seek_eq. cbn [plan data pos].
  unfold os.Copy. rewrite read_to_end_eq. cbn [plan data pos].
  rewrite drop_drop, !fault_at_drop. cbn [Nat.add].
  destruct Hfail as [H4|[H4 Hw]]; rewrite H4.
  - cbn [fst snd os.files]. split; [done|]. rewrite lookup_insert_eq. by eexists.
  - rewrite Write_eq. cbn [os.fs_plan]. rewrite fault_at_drop. cbn [Nat.add]. rewrite Hw.
    cbn [fst snd os.files os.with_plan]. split; [done|]. rewrite lookup_insert_eq. by eexists.
Qed.

(** *** Two uploads, one after the other *)

Lemma s3_Get_stored (s : s3ImageStorage) (key : string) (m : s3.Store) (o : s3.Object) :
  fault_at 0 (s3.s3_plan m) = None ->
  fault_at 1 (s3.s3_plan m) = None ->
  s3.objects m !! (bucket s, prefix s +:+ key) = Some o ->
  fst (s3_Get s key m) = (s3.Body o, None).
Proof.
  intros H0 H1 Ho. unfold s3_Get, s3.GetObject.
  rewrite (surjective_pairing (next_fault (s3.s3_plan m))).
  rewrite next_fault_fst, next_fault_snd, H0, Ho.
  unfold s3.ReadBody. cbn [s3.with_plan s3.s3_plan].
  rewrite (surjective_pairing (next_fault (drop 1 (s3.s3_plan m)))).
  rewrite next_fault_fst, fault_at_drop. cbn [Nat.add]. by rewrite H1.
Qed.

(** X8. The S3 [Save] makes no check against what is stored: after two
    successful calls, [Get] with the first destination returns the first
    content if the two destinations differ, and the second content if they
    are the same. *)
Theorem s3_Save_twice
    (s : s3ImageStorage) (unique1 unique2 : string) (file1 file2 : FileHeader)
    (m0 m1 m2 : s3.Store) (pic1 pic2 : dto.PictureRequest) :
  s3_Save s unique1 file1 m0 = (inl pic1, m1) ->
  s3_Save s unique2 file2 m1 = (inl pic2, m2) ->
  fault_at 0 (s3.s3_plan m2) = None ->
  fault_at 1 (s3.s3_plan m2) = None ->
  fst (s3_Get s (dto.Destination pic1) m2)
  = (if decide (dto.Destination pic1 = dto.Destination pic2)
     then content file2 else content file1, None).
Proof.
  intros (t1 & d1 & cfg1 & _ & _ & _ & _ & _ & _ & -> & _ & ->)%s3_Save_ok_inv.
  intros (t2 & d2 & cfg2 & _ & _ & _ & _ & _ & _ & -> & _ & ->)%s3_Save_ok_inv.
  cbn [dto.Destination]. intros H0 H1.
  case_decide as Heq.
  - apply (s3_Get_stored _ _ _ {| s3.Body := content file2; s3.ContentType := t2;
                                  s3.ACL := s3.ObjectCannedACLPrivate |}); [done..|].
    cbn [s3.objects]. by rewrite Heq, lookup_insert_eq.
  - apply (s3_Get_stored _ _ _ {| s3.Body := content file1; s3.ContentType := t1;
                                  s3.ACL := s3.ObjectCannedACLPrivate |}); [done..|].
    cbn [s3.objects]. rewrite lookup_insert_ne, lookup_insert_eq; [done|].
    intros [= Hk]. by apply (inj (String.app (prefix s))) in Hk.
Qed.

(** X9. The local [Save] makes no check against what is stored either:
    after two successful calls whose resets before the copy worked, [Get]
    with the first destination returns the first content if the two
    destinations differ, and the second content if they are the same. *)
Theorem local_Save_twice
    (s : localImageStorage) (unique1 unique2 : string) (file1 file2 : FileHeader)
    (m0 m1 m2 : os.FS) (pic1 pic2 : dto.PictureRequest) :
  local_Save s unique1 file1 m0 = (inl pic1, m1) ->
  fault_at 3 (io_plan file1) = None ->
  local_Save s unique2 file2 m1 = (inl pic2, m2) ->
  fault_at 3 (io_plan file2) = None ->
  fault_at 0 (os.fs_plan m2) = None ->
  fault_at 1 (os.fs_plan m2) = None ->
  fst (local_Get s (dto.Destination pic1) m2)
  = (if decide (dto.Destination pic1 = dto.Destination pic2)
     then content file2 else content file1, None).
Proof.
  intros (t1 & d1 & cfg1 & _ & _ & _ & _ & _ & -> & _ & _ & _ & _ & ->)%local_Save_ok_inv R1.
  intros (t2 & d2 & cfg2 & _ & _ & _ & _ & _ & -> & _ & _ & _ & _ & ->)%local_Save_ok_inv R2.
  rewrite R1, R2, !drop_0. cbn [dto.Destination]. intros H0 H1.
  case_decide as Heq.
  - apply local_key_is_used_verbatim_aux; [|done..].
    cbn [os.files]. by rewrite Heq, lookup_insert_eq.
  - apply local_key_is_used_verbatim_aux; [|done..].
    cbn [os.files]. rewrite lookup_insert_ne, lookup_insert_eq; [done|].
    intros Hk. apply (inj (String.app (path s))) in Hk.
    by apply (inj (String.app "/")) in Hk.
Qed.

(** X10. The name of the uploaded file cannot move the stored object: of
    that name only the extension is kept, and it has no separator, so the
    destination of a successful [Save] has none when the generated name has
    none, and the local path built from it lies directly in the root. *)
Theorem destination_has_no_separator
    (unique : string) (file : FileHeader) (pic : dto.PictureRequest) :
  Saved unique file pic ->
  filepath.before_last_slash unique = None ->
  filepath.before_last_slash (dto.Destination pic) = None
  /\ forall sl, path sl <> EmptyString ->
       filepath.parent (local_GetFullPath sl (dto.Destination pic)) = path sl.
Proof.
  intros (t & d & cfg & _ & _ & _ & ->)%Saved_inv Hu. cbn [dto.Destination].
  assert (filepath.before_last_slash (unique +:+ filepath.Ext (Filename file)) = None) as Hd
    by (apply before_last_slash_append; [done | apply Ext_no_separator]).
  split; [done|]. intros sl Hr. by apply parent_entry.
Qed.

(** *** [Get] *)

(** X11. Every error of the S3 [Get] is of one of the two kinds declared by
    the package and names the destination as the caller gave it, without
    the prefix; no bytes come with it; and it is the not-found kind only
    when the fetch itself failed with the code NoSuchKey. *)
Theorem s3_Get_errors_are_of_two_kinds
    (s : s3ImageStorage) (key : string) (m m' : s3.Store) (b : list byte) (err : error) :
  s3_Get s key m = ((b, Some err), m') ->
  b = []
  /\ (err = S3NotFoundError key \/ exists cause, err = S3DownloadError key cause)
  /\ (err = S3NotFoundError key ->
      exists cause, fst (s3.GetObject m (bucket s) (prefix s +:+ key)) = inr cause
                    /\ as_ErrorCode cause = Some "NoSuchKey").
Proof.
  unfold s3_Get. destruct (s3.GetObject m _ _) as [[resp|cause] m1].
  - destruct (s3.ReadBody m1 resp) as [[body|cause] m2]; [done|].
    intros [= <- <- <-]. split; [done|]. split; [right; eauto | done].
  - destruct (as_ErrorCode cause) as [code|] eqn:Hc.
    + destruct (String.eqb code "NoSuchKey") eqn:He.
      * apply String.eqb_eq in He as ->. intros [= <- <- <-].
        split; [done|]. split; [by left | eauto].
      * intros [= <- <- <-]. split; [done|]. split; [right; eauto | done].
    + intros [= <- <- <-]. split; [done|]. split; [right; eauto | done].
Qed.

(** X12. [Get] only reads: the local one leaves the files and directories
    of the medium as they are, the S3 one leaves the objects as they are,
    whatever the key and whether it fails or not. *)
Theorem Get_is_read_only
    (sl : localImageStorage) (sr : s3ImageStorage) (key : string)
    (ml : os.FS) (mr : s3.Store) :
  os.files (snd (local_Get sl key ml)) = os.files ml
  /\ os.dirs (snd (local_Get sl key ml)) = os.dirs ml
  /\ s3.objects (snd (s3_Get sr key mr)) = s3.objects mr.
Proof.
  assert (forall m p, os.files (snd (os.Open m p)) = os.files m
                      /\ os.dirs (snd (os.Open m p)) = os.dirs m) as Hopen.
  { intros m p. unfold os.Open. rewrite (surjective_pairing (next_fault (os.fs_plan m))).
    destruct (fst (next_fault (os.fs_plan m))); [done|]. by destruct (os.exists_at m p). }
  assert (forall m f, os.files (snd (os.ReadAll m f)) = os.files m
                      /\ os.dirs (snd (os.ReadAll m f)) = os.dirs m) as Hread.
  { intros m f. unfold os.ReadAll. rewrite (surjective_pairing (next_fault (os.fs_plan m))).
    destruct (fst (next_fault (os.fs_plan m))); [done|]. by destruct (os.files m !! f). }
  assert (os.files (snd (local_Get sl key ml)) = os.files ml
          /\ os.dirs (snd (local_Get sl key ml)) = os.dirs ml) as [Hf Hd].
  { unfold local_Get. destruct (Hopen ml (local_GetFullPath sl key)) as [Hf Hd].
    destruct (os.Open ml _) as [[file|e] m1]; cbn [snd] in *; [|done].
    destruct (Hread m1 file) as [Hf' Hd']. split; congruence. }
  split; [done|]. split; [done|].
  unfold s3_Get, s3.GetObject.
  rewrite (surjective_pairing (next_fault (s3.s3_plan mr))).
  destruct (fst (next_fault (s3.s3_plan mr))) as [e|].
  { by destruct (match as_ErrorCode e with Some code => String.eqb code "NoSuchKey" | None => false end). }
  destruct (s3.objects mr !! _) as [o|]; [|done].
  unfold s3.ReadBody. cbn [s3.with_plan s3.s3_plan].
  rewrite (surjective_pairing (next_fault (snd (next_fault (s3.s3_plan mr))))).
  by destruct (fst (next_fault (snd (next_fault (s3.s3_plan mr))))).
Qed.

(** *** [NewStorage] *)

Lemma string_length_append (a b : string) :
  String.length (a +:+ b) = (String.length a + String.length b)%nat.
Proof.
  induction a as [|c a IH]; [done|].
  change (S (String.length (a +:+ b)) = S (String.length a + String.length b)).
  by rewrite IH.
Qed.

Lemma entry_is_not_root (root name : string) : root +:+ "/" +:+ name <> root.
Proof.
  intros Heq. apply (f_equal String.length) in Heq.
  rewrite !string_length_append in Heq. cbn [String.length] in Heq. lia.
Qed.

(** X13. When something is already at the path, [NewStorage] makes no
    directory and returns the backend; it does not ask whether the entry is
    a directory, so a regular file there is accepted as well. *)
Theorem NewStorage_keeps_existing_entry (root : string) (m : os.FS) :
  fault_at 0 (os.fs_plan m) = None ->
  os.exists_at m root = true ->
  NewStorage root m = (Some {| path := root |}, os.with_plan m (drop 1 (os.fs_plan m))).
Proof.
  intros H0 He. unfold NewStorage, os.Stat.
  rewrite (surjective_pairing (next_fault (os.fs_plan m))).
  by rewrite next_fault_fst, next_fault_snd, H0, He.
Qed.


(** X15. [NewStorage] reacts to one error of [os.Stat] only: when the call
    fails for another reason than a missing entry, no directory is made and
    the backend is returned all the same; if the root is in fact missing,
    every later [Save] on that medium fails. *)
Theorem NewStorage_ignores_other_Stat_errors (root : string) (m : os.FS) (err : error) :
  fault_at 0 (os.fs_plan m) = Some err ->
  is_ErrNotExist err = false ->
  NewStorage root m = (Some {| path := root |}, os.with_plan m (drop 1 (os.fs_plan m)))
  /\ (root <> EmptyString -> root ∉ os.dirs m ->
      forall unique file, filepath.before_last_slash unique = None ->
        exists e, fst (local_Save {| path := root |} unique file
                         (os.with_plan m (drop 1 (os.fs_plan m)))) = inr e).
Proof.
  intros H0 Hn. split.
  - unfold NewStorage, os.Stat.
    rewrite (surjective_pairing (next_fault (os.fs_plan m))).
    by rewrite next_fault_fst, next_fault_snd, H0, Hn.
  - intros Hr Hd unique file Hu.
    destruct (local_Save {| path := root |} unique file _) as [[pic|e] m'] eqn:Hs;
      [|by eexists].
    apply local_Save_ok_inv in Hs as (t' & d' & cfg' & _ & _ & _ & _ & _ & _ & _ & _ & _ & Hpd & _).
    cbn [path os.with_plan os.dirs] in Hpd. rewrite parent_entry in Hpd; [done..|].
    apply before_last_slash_append; [done | apply Ext_no_separator].
Qed.

(** X16. First use: on a healthy disk where the root is missing and its
    parent is there, [NewStorage], then [Save] of an upload whose header
    decodes and whose handle meets no fault, then [Get] with the returned
    destination, give back the uploaded bytes. *)
Theorem first_use_roundtrip
    (root unique : string) (file : FileHeader) (m : os.FS)
    (t : string) (cfg : image.Config) :
  os.fs_plan m = [] ->
  os.exists_at m root = false ->
  filepath.parent root ∈ os.dirs m ->
  root <> EmptyString ->
  filepath.before_last_slash unique = None ->
  root +:+ "/" +:+ unique +:+ filepath.Ext (Filename file) ∉ os.dirs m ->
  header_decode file = Some (t, inl cfg) ->
  fault_at 3 (io_plan file) = None ->
  fault_at 4 (io_plan file) = None ->
  exists s m1 pic m2,
    NewStorage root m = (Some s, m1)
    /\ local_Save s unique file m1 = (inl pic, m2)
    /\ fst (local_Get s (dto.Destination pic) m2) = (content file, None).
Proof.
  intros Hplan He Hp Hr Hu Hnd Hhd H3 H4.
  assert (forall i, fault_at i (os.fs_plan m) = None) as Hf by (intros i; by rewrite Hplan).
  pose proof (NewStorage_creates_root root m (Hf 0%nat) (Hf 1%nat) He Hp) as Hnew.
  rewrite Hplan in Hnew. cbn [drop] in Hnew.
  set (m1 := {| os.dirs := {[root]} ∪ os.dirs m; os.files := os.files m; os.fs_plan := [] |}) in *.
  assert (root +:+ "/" +:+ unique +:+ filepath.Ext (Filename file) ∉ os.dirs m1) as Hnd1.
  { cbn [os.dirs m1]. intros [Hx%elem_of_singleton|Hx]%elem_of_union; [|done].
    by apply entry_is_not_root in Hx. }
  assert (filepath.parent (root +:+ "/" +:+ unique +:+ filepath.Ext (Filename file))
            ∈ os.dirs m1) as Hpd1.
  { cbn [os.dirs m1]. rewrite parent_entry; [set_solver|done|].
    apply before_last_slash_append; [done | apply Ext_no_separator]. }
  pose proof (local_Save_ok_intro {| path := root |} unique file m1 t cfg
                Hhd H4 eq_refl eq_refl Hnd1 Hpd1) as Hfst.
  destruct (local_Save {| path := root |} unique file m1) as [r m2] eqn:Hs.
  cbn [fst] in Hfst. subst r.
  eexists _, m1, _, m2. split; [exact Hnew|]. split; [exact Hs|].
  pose proof Hs as (t' & d' & cfg' & _ & _ & _ & _ & _ & _ & _ & _ & _ & _ & Hm2)%local_Save_ok_inv.
  assert (fault_at 0 (os.fs_plan m2) = None /\ fault_at 1 (os.fs_plan m2) = None)
    as [Hg0 Hg1] by (by rewrite Hm2).
  destruct (local_readback _ _ _ _ _ _ Hs Hg0 Hg1) as (d & _ & ->).
  by rewrite H3, drop_0.
Qed.

(** *** [NewS3Storage] *)

Lemma last_byte_slash (p : string) : last_byte (p +:+ "/") = Some "/"%char.
Proof.
  induction p as [|c p IH]; [done|].
  change (last_byte (String c (p +:+ "/")) = Some "/"%char).
  cbn [last_byte]. rewrite IH. by destruct (p +:+ "/") eqn:Hp; [destruct p|].
Qed.

Lemma last_byte_None (p : string) : last_byte p = None -> p = EmptyString.
Proof.
  induction p as [|c p IH]; [done|]. cbn [last_byte].
  destruct p; [done|]. intros Hx. by apply IH in Hx.
Qed.

(** X17. The prefix of a backend built by [NewS3Storage] is a directory
    prefix: it is the configured one, with a "/" added when that one is not
    empty and does not end with one, so it is empty or ends with "/"; a
    prefix already of that form is kept.  A failure to load the AWS
    configuration is returned and no backend is built. *)
Theorem NewS3Storage_prefix
    (loaded : option error) (viper : gmap string string) (s : s3ImageStorage) :
  startup.NewS3Storage_with loaded viper = inl s ->
  loaded = None
  /\ bucket s = startup.GetString viper startup.cfgS3Bucket
  /\ cloudFrontURL s = startup.GetString viper startup.cfgCloudFrontURL
  /\ (prefix s = EmptyString \/ last_byte (prefix s) = Some "/"%char)
  /\ (prefix s = startup.GetString viper startup.cfgS3Prefix
      \/ prefix s = startup.GetString viper startup.cfgS3Prefix +:+ "/")
  /\ (prefix s = EmptyString <-> startup.GetString viper startup.cfgS3Prefix = EmptyString)
  /\ prefix (NewS3Storage (bucket s) (prefix s) (cloudFrontURL s)) = prefix s.
Proof.
  unfold startup.NewS3Storage_with. destruct loaded as [err|]; [done|].
  intros [= <-]. unfold NewS3Storage. cbn [bucket prefix cloudFrontURL].
  set (p := startup.GetString viper startup.cfgS3Prefix).
  split; [done|]. split; [done|]. split; [done|].
  destruct (last_byte p) as [c|] eqn:Hl.
  - destruct (Ascii.eqb c "/") eqn:Hc.
    + apply Ascii.eqb_eq in Hc as ->. rewrite Hl.
      split; [by right|]. split; [by left|]. by split.
    + rewrite last_byte_slash. split; [by right|]. split; [by right|].
      split; [|done].
      split; [by destruct p | intros Hp; by rewrite Hp in Hl].
  - apply last_byte_None in Hl. rewrite Hl. by repeat split; try left.
Qed.

End Behaviour.

(** ** The contract of [Save]: failures and the round trip *)

Section SaveContract.
Context `{Libs}.


(** C1. After a successful [Save], the object is stored under the key that
    [Get] resolves from the returned destination (the path root "/"
    destination for the local variant, the key prefix followed by
    destination in the bucket for the S3 one), it holds the uploaded bytes,
    and a [Get] with that destination which meets no fault of the medium
    returns exactly these bytes.  For the local variant the statement is
    about uploads whose handle does not fail the reset before the copy, as
    the handle returned by [FileHeader.Open] does not. *)
Theorem save_then_get_returns_upload
    (unique : string) (file : FileHeader) (pic : dto.PictureRequest) :
  (forall (sl : localImageStorage) (ml ml' : os.FS),
     local_Save sl unique file ml = (inl pic, ml') ->
     fault_at 3 (io_plan file) = None ->
     os.files ml' !! local_GetFullPath sl (dto.Destination pic) = Some (content file)
     /\ (fault_at 0 (os.fs_plan ml') = None -> fault_at 1 (os.fs_plan ml') = None ->
         local_Get sl (dto.Destination pic) ml'
         = ((content file, None), os.with_plan ml' (drop 2 (os.fs_plan ml')))))
  /\ (forall (sr : s3ImageStorage) (mr mr' : s3.Store),
     s3_Save sr unique file mr = (inl pic, mr') ->
     s3.objects mr' !! (bucket sr, prefix sr +:+ dto.Destination pic)
     = Some {| s3.Body := content file;
               s3.ContentType := dto.ContentType pic;
               s3.ACL := s3.ObjectCannedACLPrivate |}
     /\ (fault_at 0 (s3.s3_plan mr') = None -> fault_at 1 (s3.s3_plan mr') = None ->
         s3_Get sr (dto.Destination pic) mr'
         = ((content file, None), s3.with_plan mr' (drop 2 (s3.s3_plan mr'))))).
Proof.
  split.
  - intros sl ml ml'
      (t & d & cfg & _ & _ & _ & _ & _ & -> & _ & _ & _ & _ & ->)%local_Save_ok_inv H3.
    rewrite H3, drop_0. cbn [dto.Destination os.files os.fs_plan].
    unfold local_GetFullPath. split; [apply lookup_insert_eq|].
    intros H0 H1. unfold local_Get, local_GetFullPath, os.Open.
    cbn [os.fs_plan].
    rewrite (surjective_pairing (next_fault (drop 2 (os.fs_plan ml)))).
    rewrite next_fault_fst, next_fault_snd, H0.
    assert (forall m, os.files m !! (path sl +:+ "/" +:+ unique +:+ filepath.Ext (Filename file))
                      = Some (content file) ->
                      os.exists_at m (path sl +:+ "/" +:+ unique +:+ filepath.Ext (Filename file))
                      = true) as Hex.
    { intros m Hm. unfold os.exists_at.
      rewrite (bool_decide_eq_true_2 (is_Some _)); [apply orb_true_r | by eexists]. }
    rewrite Hex by apply lookup_insert_eq.
    unfold os.ReadAll. cbn [os.with_plan os.fs_plan os.files os.dirs].
    rewrite (surjective_pairing (next_fault (drop 1 (drop 2 (os.fs_plan ml))))).
    rewrite next_fault_fst, next_fault_snd, fault_at_drop. cbn [Nat.add].
    rewrite H1, lookup_insert_eq. by rewrite !drop_drop.
  - intros sr mr mr'
      (t & d & cfg & _ & _ & _ & _ & _ & _ & -> & _ & ->)%s3_Save_ok_inv.
    cbn [dto.Destination dto.ContentType s3.objects s3.s3_plan].
    split; [apply lookup_insert_eq|].
    intros H0 H1. unfold s3_Get, s3.GetObject. cbn [s3.s3_plan s3.objects].
    rewrite (surjective_pairing (next_fault (drop 1 (s3.s3_plan mr)))).
    rewrite next_fault_fst, next_fault_snd, H0, lookup_insert_eq.
    unfold s3.ReadBody. cbn [s3.with_plan s3.s3_plan s3.Body s3.objects].
    rewrite (surjective_pairing (next_fault (drop 1 (drop 1 (s3.s3_plan mr))))).
    rewrite next_fault_fst, next_fault_snd, fault_at_drop. cbn [Nat.add].
    rewrite H1. by rewrite !drop_drop.
Qed.

End SaveContract.

(** ** The route tables *)

(** X18. The seven routes of the two tables, which the program installs on
    one router, are pairwise distinct in method and path, whatever the
    handlers. *)
Theorem route_tables_do_not_clash
    (F : Type) (pictures : routes.PicturesHandler F) (server : routes.ServerHandler F) :
  NoDup (routes.endpoint <$> (routes.NewPicturesRoutes pictures
                              ++ routes.NewServerRouteList server)).
Proof. apply (bool_decide_unpack _). by vm_compute. Qed.

(** ** The added properties on concrete uploads *)

Section MoreRuns.

#[local] Existing Instance sample.libs.

Lemma dog_gif_saved_s3 :
  s3_Save sample.remote "u2" sample.dog_gif
    (snd (s3_Save sample.remote "u1" sample.cat_gif sample.cloud))
  = (inl sample.dog_gif_record,
     snd (s3_Save sample.remote "u2" sample.dog_gif
            (snd (s3_Save sample.remote "u1" sample.cat_gif sample.cloud)))).
Proof. by vm_compute. Defined.

Lemma dog_gif_saved_local :
  local_Save sample.local "u2" sample.dog_gif
    (snd (local_Save sample.local "u1" sample.cat_gif sample.disk))
  = (inl sample.dog_gif_record,
     snd (local_Save sample.local "u2" sample.dog_gif
            (snd (local_Save sample.local "u1" sample.cat_gif sample.disk)))).
Proof. by vm_compute. Defined.

Lemma undecodable_upload_witness :
  (forall t cfg, header_decode sample.notes_txt <> Some (t, inl cfg))
  /\ exists e, local_Save sample.local "u1" sample.notes_txt sample.disk = (inr e, sample.disk).
Proof.
  assert (forall t cfg, header_decode sample.notes_txt <> Some (t, inl cfg)) as Hn
    by (intros t cfg; vm_compute; discriminate).
  split; [exact Hn|].
  exact (proj1 (undecodable_upload_leaves_medium_untouched sample.notes_txt "u1"
                  sample.local sample.disk sample.remote sample.cloud Hn)).
Defined.

Lemma empty_upload_witness :
  content sample.empty_upload = []
  /\ fst (local_Save sample.local "u1" sample.empty_upload sample.disk)
     = inr {| dto.StatusCode := 500; dto.Error := io_EOF; dto.Data := ∅ |}.
Proof.
  split; [reflexivity|].
  rewrite (proj1 (empty_upload_is_server_error sample.empty_upload "u1"
                    sample.local sample.disk sample.remote sample.cloud
                    eq_refl eq_refl eq_refl)).
  reflexivity.
Defined.

Lemma Save_error_status_witness :
  fst (local_Save sample.local "u1" sample.broken_gif sample.disk)
  = inr {| dto.StatusCode := 500;
           dto.Error := errorString "gif: reading header: unexpected EOF";
           dto.Data := {["format" := "image/gif"]} |}
  /\ ~ exists t, sniffed sample.broken_gif = Some t /\ t ∉ supported.
Proof.
  assert (fst (local_Save sample.local "u1" sample.broken_gif sample.disk)
          = inr {| dto.StatusCode := 500;
                   dto.Error := errorString "gif: reading header: unexpected EOF";
                   dto.Data := {["format" := "image/gif"]} |}) as He
    by (vm_compute; reflexivity).
  split; [exact He|].
  destruct (Save_error_status sample.broken_gif "u1" _ sample.local sample.disk
              sample.remote sample.cloud (or_introl He)) as (_ & Hiff & _).
  intros Hx. apply Hiff in Hx. discriminate Hx.
Defined.

Lemma sniffing_witness :
  take 512 (content sample.cat_gif) = take 512 (content sample.cat_gif_seek_fault)
  /\ sniffed sample.cat_gif = sniffed sample.cat_gif_seek_fault.
Proof.
  split; [reflexivity|].
  exact (sniffing_reads_512_bytes sample.cat_gif sample.cat_gif_seek_fault
           eq_refl eq_refl eq_refl).
Defined.

Lemma one_path_witness :
  "/srv/secret.txt" <> path sample.local +:+ "/" +:+ "u1" +:+ filepath.Ext "cat.gif"
  /\ os.files (snd (local_Save sample.local "u1" sample.cat_gif sample.disk))
       !! "/srv/secret.txt" = os.files sample.disk !! "/srv/secret.txt".
Proof.
  assert ("/srv/secret.txt" <> path sample.local +:+ "/" +:+ "u1" +:+ filepath.Ext "cat.gif")
    as Hp by (vm_compute; discriminate).
  split; [exact Hp|].
  exact (proj1 (local_Save_touches_one_path sample.local "u1" sample.cat_gif sample.disk
                  "/srv/secret.txt" Hp)).
Defined.

Lemma all_or_nothing_witness :
  is_Some (header_decode sample.cat_gif_seek_fault)
  /\ s3.objects (snd (s3_Save sample.remote "u1" sample.cat_gif_seek_fault sample.cloud))
     = s3.objects sample.cloud.
Proof.
  split; [eexists; vm_compute; reflexivity|].
  apply (proj1 (s3_Save_stores_all_or_nothing sample.remote "u1"
                  sample.cat_gif_seek_fault sample.cloud)
           {| dto.StatusCode := 500;
              dto.Error := wrapError "seek before upload: " (Errno "EIO");
              dto.Data := ∅ |}).
  vm_compute. reflexivity.
Defined.

Lemma failed_copy_witness :
  fault_at 4 (io_plan sample.cat_gif_copy_fault) = Some (Errno "EIO")
  /\ os.files sample.disk !! "/srv/images/u1.gif" = None
  /\ fst (local_Save sample.local "u1" sample.cat_gif_copy_fault sample.disk)
     = inr {| dto.StatusCode := 500; dto.Error := Errno "EIO"; dto.Data := ∅ |}
  /\ is_Some (os.files (snd (local_Save sample.local "u1" sample.cat_gif_copy_fault
                               sample.disk)) !! "/srv/images/u1.gif").
Proof.
  assert (header_decode sample.cat_gif_copy_fault
          = Some ("image/gif", inl {| image.Width := 3; image.Height := 2 |})) as Hd
    by (vm_compute; reflexivity).
  assert (path sample.local +:+ "/" +:+ "u1" +:+ filepath.Ext (Filename sample.cat_gif_copy_fault)
            ∉ os.dirs sample.disk) as Hnd
    by (apply (bool_decide_unpack _); vm_compute; reflexivity).
  assert (filepath.parent (path sample.local +:+ "/" +:+ "u1"
                           +:+ filepath.Ext (Filename sample.cat_gif_copy_fault))
            ∈ os.dirs sample.disk) as Hpd
    by (apply (bool_decide_unpack _); vm_compute; reflexivity).
  assert (os.files sample.disk
            !! (path sample.local +:+ "/" +:+ "u1"
                +:+ filepath.Ext (Filename sample.cat_gif_copy_fault)) = None) as Hno
    by (vm_compute; reflexivity).
  split; [reflexivity|]. split; [exact Hno|].
  exact (failed_copy_leaves_created_file sample.local "u1" sample.cat_gif_copy_fault
           sample.disk _ _ (Errno "EIO") Hd eq_refl Hnd Hpd Hno (or_introl eq_refl)).
Defined.

Lemma s3_Save_twice_witness :
  dto.Destination sample.cat_gif_record <> dto.Destination sample.dog_gif_record
  /\ fst (s3_Get sample.remote "u1.gif"
            (snd (s3_Save sample.remote "u2" sample.dog_gif
                    (snd (s3_Save sample.remote "u1" sample.cat_gif sample.cloud)))))
     = (content sample.cat_gif, None).
Proof.
  split; [discriminate|].
  exact (s3_Save_twice sample.remote "u1" "u2" sample.cat_gif sample.dog_gif
           _ _ _ _ _ cat_gif_saved_s3 dog_gif_saved_s3 eq_refl eq_refl).
Defined.

Lemma local_Save_twice_witness :
  fst (local_Get sample.local "u1.gif"
         (snd (local_Save sample.local "u2" sample.dog_gif
                 (snd (local_Save sample.local "u1" sample.cat_gif sample.disk)))))
  = (content sample.cat_gif, None).
Proof.
  exact (local_Save_twice sample.local "u1" "u2" sample.cat_gif sample.dog_gif
           _ _ _ _ _ cat_gif_saved_local eq_refl dog_gif_saved_local eq_refl
           eq_refl eq_refl).
Defined.

Lemma destination_witness :
  Saved "u1" sample.cat_gif sample.cat_gif_record
  /\ filepath.before_last_slash "u1" = None
  /\ filepath.before_last_slash (dto.Destination sample.cat_gif_record) = None.
Proof.
  assert (Saved "u1" sample.cat_gif sample.cat_gif_record) as Hs
    by exact (Saved_s3 _ _ _ _ _ _ cat_gif_saved_s3).
  split; [exact Hs|]. split; [reflexivity|].
  exact (proj1 (destination_has_no_separator "u1" sample.cat_gif sample.cat_gif_record
                  Hs eq_refl)).
Defined.

Lemma s3_Get_errors_witness :
  s3_Get sample.remote "nope.gif" sample.cloud
  = (([], Some (S3NotFoundError "nope.gif")), sample.cloud)
  /\ exists cause,
       fst (s3.GetObject sample.cloud (bucket sample.remote)
              (prefix sample.remote +:+ "nope.gif")) = inr cause
       /\ as_ErrorCode cause = Some "NoSuchKey".
Proof.
  assert (s3_Get sample.remote "nope.gif" sample.cloud
          = (([], Some (S3NotFoundError "nope.gif")), sample.cloud)) as Hg
    by (vm_compute; reflexivity).
  split; [exact Hg|].
  exact (proj2 (proj2 (s3_Get_errors_are_of_two_kinds sample.remote "nope.gif"
                         sample.cloud sample.cloud [] _ Hg)) eq_refl).
Defined.

Lemma NewStorage_existing_witness :
  os.exists_at sample.disk "/srv/images" = true
  /\ NewStorage "/srv/images" sample.disk = (Some sample.local, sample.disk).
Proof.
  split; [vm_compute; reflexivity|].
  exact (NewStorage_keeps_existing_entry "/srv/images" sample.disk eq_refl
           ltac:(vm_compute; reflexivity)).
Defined.


Lemma NewStorage_other_error_witness :
  fault_at 0 (os.fs_plan sample.guarded_disk) = Some (Errno "EACCES")
  /\ fst (NewStorage "/srv/images" sample.guarded_disk) = Some sample.local
  /\ exists e, fst (local_Save sample.local "u1" sample.cat_gif
                      (os.with_plan sample.guarded_disk
                         (drop 1 (os.fs_plan sample.guarded_disk)))) = inr e.
Proof.
  assert ("/srv/images" ∉ os.dirs sample.guarded_disk) as Hd
    by (apply (bool_decide_unpack _); vm_compute; reflexivity).
  destruct (NewStorage_ignores_other_Stat_errors "/srv/images" sample.guarded_disk
              (Errno "EACCES") eq_refl eq_refl) as [Hn Hs].
  split; [reflexivity|]. split; [by rewrite Hn|].
  exact (Hs ltac:(discriminate) Hd "u1" sample.cat_gif eq_refl).
Defined.

Lemma first_use_witness :
  os.exists_at sample.bare_disk "/srv/images" = false
  /\ exists s m1 pic m2,
       NewStorage "/srv/images" sample.bare_disk = (Some s, m1)
       /\ local_Save s "u1" sample.cat_gif m1 = (inl pic, m2)
       /\ fst (local_Get s (dto.Destination pic) m2) = (content sample.cat_gif, None).
Proof.
  assert (filepath.parent "/srv/images" ∈ os.dirs sample.bare_disk) as Hp
    by (apply (bool_decide_unpack _); vm_compute; reflexivity).
  assert ("/srv/images" +:+ "/" +:+ "u1" +:+ filepath.Ext (Filename sample.cat_gif)
            ∉ os.dirs sample.bare_disk) as Hnd
    by (apply (bool_decide_unpack _); vm_compute; reflexivity).
  split; [vm_compute; reflexivity|].
  exact (first_use_roundtrip "/srv/images" "u1" sample.cat_gif sample.bare_disk
           "image/gif" {| image.Width := 3; image.Height := 2 |}
           eq_refl ltac:(vm_compute; reflexivity) Hp ltac:(discriminate) eq_refl Hnd
           ltac:(vm_compute; reflexivity) eq_refl eq_refl).
Defined.

Lemma NewS3Storage_prefix_witness :
  startup.NewS3Storage_with None sample.settings = inl sample.remote
  /\ prefix sample.remote = startup.GetString sample.settings startup.cfgS3Prefix +:+ "/".
Proof.
  assert (startup.NewS3Storage_with None sample.settings = inl sample.remote) as Hs
    by (vm_compute; reflexivity).
  split; [exact Hs|].
  destruct (NewS3Storage_prefix None sample.settings sample.remote Hs)
    as (_ & _ & _ & _ & [Hp|Hp] & _); [discriminate Hp | exact Hp].
Defined.

Lemma s3_roundtrip_witness :
  fst (s3_Get sample.remote "u1.gif"
         (snd (s3_Save sample.remote "u1" sample.cat_gif sample.cloud)))
  = (content sample.cat_gif, None).
Proof.
  exact (s3_roundtrip sample.remote "u1" sample.cat_gif _ _ _ cat_gif_saved_s3
           eq_refl eq_refl).
Defined.

Lemma local_roundtrip_witness :
  fault_at 3 (io_plan sample.cat_gif) = None
  /\ fst (local_Get sample.local "u1.gif"
            (snd (local_Save sample.local "u1" sample.cat_gif sample.disk)))
     = (content sample.cat_gif, None).
Proof.
  split; [reflexivity|].
  exact (local_roundtrip sample.local "u1" sample.cat_gif _ _ _ cat_gif_saved_local
           eq_refl eq_refl eq_refl).
Defined.

Lemma s3_Get_missing_witness :
  s3.objects sample.cloud !! ("pictures", "img/nope.gif") = None
  /\ fst (s3_Get sample.remote "nope.gif" sample.cloud)
     = ([], Some (S3NotFoundError "nope.gif")).
Proof.
  split; [vm_compute; reflexivity|].
  exact (s3_Get_missing sample.remote "nope.gif" sample.cloud eq_refl
           ltac:(vm_compute; reflexivity)).
Defined.

Lemma local_Get_missing_witness :
  os.exists_at sample.disk "/srv/images/nope.gif" = false
  /\ fst (local_Get sample.local "nope.gif" sample.disk)
     = ([], Some (PathError "open" "/srv/images/nope.gif" (Errno "ENOENT"))).
Proof.
  split; [vm_compute; reflexivity|].
  exact (local_Get_missing sample.local "nope.gif" sample.disk eq_refl
           ltac:(vm_compute; reflexivity)).
Defined.

Lemma s3_Save_checks_witness :
  open_err sample.cat_gif = None /\ fault_at 3 (io_plan sample.cat_gif) = None.
Proof.
  destruct (s3_Save_checks_every_step sample.remote "u1" sample.cat_gif _ _ _
              cat_gif_saved_s3) as (Ho & Hf & _).
  split; [exact Ho | exact (Hf 3%nat ltac:(lia))].
Defined.

Lemma local_Save_checks_witness :
  open_err sample.cat_gif = None /\ fault_at 4 (io_plan sample.cat_gif) = None.
Proof.
  destruct (local_Save_checks_every_step_but_one sample.local "u1" sample.cat_gif _ _ _
              cat_gif_saved_local) as (Ho & Hf & _).
  split; [exact Ho | exact (Hf 4%nat ltac:(lia) ltac:(lia))].
Defined.


Lemma save_then_get_witness :
  fault_at 3 (io_plan sample.cat_gif) = None
  /\ fst (local_Get sample.local "u1.gif"
            (snd (local_Save sample.local "u1" sample.cat_gif sample.disk)))
     = (content sample.cat_gif, None)
  /\ fst (s3_Get sample.remote "u1.gif"
            (snd (s3_Save sample.remote "u1" sample.cat_gif sample.cloud)))
     = (content sample.cat_gif, None).
Proof.
  destruct (save_then_get_returns_upload "u1" sample.cat_gif sample.cat_gif_record)
    as [Hl Hr].
  destruct (Hl sample.local _ _ cat_gif_saved_local eq_refl) as [_ Hlg].
  destruct (Hr sample.remote _ _ cat_gif_saved_s3) as [_ Hrg].
  split; [reflexivity|].
  split; [exact (f_equal fst (Hlg eq_refl eq_refl))
         | exact (f_equal fst (Hrg eq_refl eq_refl))].
Defined.

End MoreRuns.
